(** * Verification of the todo reminder manager (modules/todoReminderManager.js)

    A shallow embedding of the [TodoReminderManager] class: the payloads it
    receives, the markup it builds for a popup, and the effects of
    [handleTodoReminder] on the popup container, the [activeReminders] map
    and the audio context.  The history ledger, which the manager's source
    does not contain, is modelled in a module of its own. *)

From Stdlib Require Import String Ascii ZArith List Bool Lia DecimalString Permutation Sorted.
Import ListNotations.
Local Open Scope string_scope.
Local Open Scope Z_scope.

(** ** JavaScript values *)

Module Js.

(** The primitive values a payload field can hold.  Numbers are restricted to
    integers: the manager only counts, compares with [0] and prints them. *)
Inductive value : Type :=
  | VUndefined
  | VNull
  | VBool (b : bool)
  | VNum (n : Z)
  | VStr (s : string).

(** ToBoolean. *)
Definition truthy (v : value) : bool :=
  match v with
  | VUndefined | VNull => false
  | VBool b => b
  | VNum n => negb (n =? 0)
  | VStr s => negb (String.eqb s "")
  end.

(** [a || b]. *)
Definition or_ (a b : value) : value := if truthy a then a else b.

Definition Zstr (n : Z) : string := NilZero.string_of_int (Z.to_int n).

(** ToString, as a template literal or [textContent] applies it. *)
Definition to_string (v : value) : string :=
  match v with
  | VUndefined => "undefined"
  | VNull => "null"
  | VBool true => "true"
  | VBool false => "false"
  | VNum n => Zstr n
  | VStr s => s
  end.

(** [a === b]. *)
Definition strict_eq (a b : value) : bool :=
  match a, b with
  | VUndefined, VUndefined => true
  | VNull, VNull => true
  | VBool x, VBool y => Bool.eqb x y
  | VNum x, VNum y => x =? y
  | VStr x, VStr y => String.eqb x y
  | _, _ => false
  end.

(** [v === 'lit'] for a string literal. *)
Definition is_str (v : value) (lit : string) : bool := strict_eq v (VStr lit).

(** [Array.prototype.slice(start, end_)] for indices within [0, length]. *)
Definition slice {A : Type} (start end_ : nat) (l : list A) : list A :=
  firstn (end_ - start) (skipn start l).

(** [String.prototype.padStart(len, pad)] with a one-character pad. *)
Fixpoint pad_left (n : nat) (pad : string) (s : string) : string :=
  match n with
  | O => s
  | S k => pad_left k pad (pad ++ s)
  end.

Definition padStart (s : string) (len : nat) (pad : string) : string :=
  pad_left (len - String.length s) pad s.

End Js.
Import Js.

(** ** The part of the browser the manager relies on *)

Module Dom.

Definition dq : string := String (ascii_of_nat 34) EmptyString.

(** Serialisation of a text node, which is what reading [innerHTML] after
    writing [textContent] returns: [&], [<], [>] and the no-break space
    (bytes 194 160 in UTF-8) are replaced by character references. *)
Fixpoint text_to_html (s : string) : string :=
  match s with
  | EmptyString => EmptyString
  | String c rest =>
      if Ascii.eqb c "&" then "&amp;" ++ text_to_html rest
      else if Ascii.eqb c "<" then "&lt;" ++ text_to_html rest
      else if Ascii.eqb c ">" then "&gt;" ++ text_to_html rest
      else
        match rest with
        | String c2 rest2 =>
            if Ascii.eqb c (ascii_of_nat 194) && Ascii.eqb c2 (ascii_of_nat 160)
            then "&nbsp;" ++ text_to_html rest2
            else String c (text_to_html rest)
        | EmptyString => String c EmptyString
        end
  end.

(** A popup element: what [createReminderElement] sets on the [div]. *)
Record Element : Type := {
  className : string;
  data_todo_id : string;
  innerHTML : string
}.

(** The clock, [Date] and the string-to-number conversion of the host.
    [Date_parse v] is the time value of [new Date(v)], [None] for an invalid
    date; the calendar functions read a time value in local time. *)
Record Runtime : Type := {
  Date_now : Z;
  Date_parse : value -> option Z;
  getHours : Z -> Z;
  getMinutes : Z -> Z;
  getMonth : Z -> Z;
  getDate : Z -> Z;
  StringToNumber : string -> option Z
}.

End Dom.
Import Dom.

(** ** Payloads *)

(** An entry of [data.items].  [i_status] and [i_deadline] are carried by the
    wire format; no function of the manager reads them. *)
Record Item : Type := {
  i_title : value;
  i_content : value;
  i_message : value;
  i_priority : value;
  i_scheduledTime : value;
  i_status : value;
  i_deadline : value
}.

(** [data.summary]. *)
Record Summary : Type := {
  total : value;
  completed : value;
  pending : value;
  overdue : value
}.

(** The object handed to [handleTodoReminder].  An absent property is
    [VUndefined]; an absent array or object is [None]. *)
Record Payload : Type := {
  p_type : value;
  p_reminderType : value;
  p_priority : value;
  p_title : value;
  p_content : value;
  p_message : value;
  p_scheduledTime : value;
  p_timestamp : value;
  p_tags : option (list value);
  p_items : option (list Item);
  p_summary : option Summary;
  p_agentName : value;
  p_todoId : value
}.

(** What [handleTodoReminder] can be called with: a primitive (among them
    [undefined] and [null]) or an object. *)
Inductive Inbound : Type :=
  | Prim (v : value)
  | Obj (p : Payload).

(** The payload read as an item, for [data.items || [data]]. *)
Definition item_of_payload (p : Payload) : Item :=
  {| i_title := p_title p;
     i_content := p_content p;
     i_message := p_message p;
     i_priority := p_priority p;
     i_scheduledTime := p_scheduledTime p;
     i_status := VUndefined;
     i_deadline := VUndefined |}.

(** The argument of [createReminderElement]. *)
Record Config : Type := {
  c_type : string;
  c_priority : value;
  c_title : value;
  c_content : value;
  c_time : value;
  c_tags : option (list value);
  c_summary : option Summary;
  c_items : option (list Item);
  c_agentName : value;
  c_todoId : value
}.

(** ** The literal parts of the markup templates *)

Module Tpl.

(** createReminderElement: markup before the priority icon. *)
Definition header_open : string :=
  "
            <div class=" ++ dq ++ "todo-reminder-header" ++ dq ++ ">
                <div class=" ++ dq ++ "todo-reminder-title" ++ dq ++ ">
                    <span class=" ++ dq ++ "priority-icon" ++ dq ++ ">".

(** createReminderElement: between icon and title. *)
Definition header_title : string :=
  "</span>
                    <span class=" ++ dq ++ "title-text" ++ dq ++ ">".

(** createReminderElement: rest of the header and the opening of the body. *)
Definition header_close : string :=
  "</span>
                </div>
                <button class=" ++ dq ++ "todo-reminder-close" ++ dq ++ " onclick=" ++ dq ++ "todoReminderManager.closeReminder(this)" ++ dq ++ ">
                    <svg viewBox=" ++ dq ++ "0 0 24 24" ++ dq ++ " width=" ++ dq ++ "18" ++ dq ++ " height=" ++ dq ++ "18" ++ dq ++ " fill=" ++ dq ++ "none" ++ dq ++ " stroke=" ++ dq ++ "currentColor" ++ dq ++ " stroke-width=" ++ dq ++ "2" ++ dq ++ ">
                        <path d=" ++ dq ++ "M18 6L6 18M6 6l12 12" ++ dq ++ "/>
                    </svg>
                </button>
            </div>
            <div class=" ++ dq ++ "todo-reminder-body" ++ dq ++ ">
        ".

(** createReminderElement: closing of the body. *)
Definition body_close : string :=
  "</div>".

(** createReminderElement: opening of the action bar. *)
Definition actions_open : string :=
  "
            <div class=" ++ dq ++ "todo-reminder-actions" ++ dq ++ ">
                ".

(** createReminderElement: agent badge, opening. *)
Definition badge_open : string :=
  "<span class=" ++ dq ++ "todo-agent-badge" ++ dq ++ ">".

(** createReminderElement: agent badge, closing. *)
Definition badge_close : string :=
  "</span>".

(** createReminderElement: view button up to the id. *)
Definition btn_view : string :=
  "
                <button class=" ++ dq ++ "todo-action-btn btn-view" ++ dq ++ " onclick=" ++ dq ++ "todoReminderManager.viewTodo('".

(** createReminderElement: dismiss button up to the id. *)
Definition btn_dismiss : string :=
  "')" ++ dq ++ ">查看详情</button>
                <button class=" ++ dq ++ "todo-action-btn btn-dismiss" ++ dq ++ " onclick=" ++ dq ++ "todoReminderManager.dismissReminder('".

(** createReminderElement: complete button up to the id. *)
Definition btn_complete : string :=
  "')" ++ dq ++ ">稍后提醒</button>
                <button class=" ++ dq ++ "todo-action-btn btn-complete" ++ dq ++ " onclick=" ++ dq ++ "todoReminderManager.completeTodo('".

(** createReminderElement: end of the action bar. *)
Definition actions_close : string :=
  "')" ++ dq ++ ">标记完成</button>
            </div>
        ".

(** renderDailySummary: up to the total. *)
Definition stats_total : string :=
  "
            <div class=" ++ dq ++ "summary-stats" ++ dq ++ ">
                <div class=" ++ dq ++ "stat-item" ++ dq ++ ">
                    <span class=" ++ dq ++ "stat-label" ++ dq ++ ">总计</span>
                    <span class=" ++ dq ++ "stat-value" ++ dq ++ ">".

(** renderDailySummary: up to the completed count. *)
Definition stats_completed : string :=
  "</span>
                </div>
                <div class=" ++ dq ++ "stat-item" ++ dq ++ ">
                    <span class=" ++ dq ++ "stat-label" ++ dq ++ ">已完成</span>
                    <span class=" ++ dq ++ "stat-value completed" ++ dq ++ ">".

(** renderDailySummary: up to the pending count. *)
Definition stats_pending : string :=
  "</span>
                </div>
                <div class=" ++ dq ++ "stat-item" ++ dq ++ ">
                    <span class=" ++ dq ++ "stat-label" ++ dq ++ ">待办</span>
                    <span class=" ++ dq ++ "stat-value pending" ++ dq ++ ">".

(** renderDailySummary: after the pending count. *)
Definition stats_after_pending : string :=
  "</span>
                </div>
                ".

(** renderDailySummary: overdue stat, opening. *)
Definition stats_overdue_open : string :=
  "
                <div class=" ++ dq ++ "stat-item" ++ dq ++ ">
                    <span class=" ++ dq ++ "stat-label" ++ dq ++ ">逾期</span>
                    <span class=" ++ dq ++ "stat-value overdue" ++ dq ++ ">".

(** renderDailySummary: overdue stat, closing. *)
Definition stats_overdue_close : string :=
  "</span>
                </div>
                ".

(** renderDailySummary: end of the stats block. *)
Definition stats_close : string :=
  "
            </div>
        ".

(** renderDailySummary: opening of the item list. *)
Definition summary_list_open : string :=
  "<div class=" ++ dq ++ "summary-items-list" ++ dq ++ ">".

(** renderDailySummary: item, up to the priority class. *)
Definition summary_item_open : string :=
  "
                    <div class=" ++ dq ++ "summary-item" ++ dq ++ ">
                        <span class=" ++ dq ++ "item-priority priority-".

(** renderDailySummary: item, up to the icon. *)
Definition summary_item_icon : string :=
  dq ++ ">".

(** renderDailySummary: item, up to the text. *)
Definition summary_item_content : string :=
  "</span>
                        <span class=" ++ dq ++ "item-content" ++ dq ++ ">".

(** renderDailySummary: item, closing. *)
Definition summary_item_close : string :=
  "</span>
                    </div>
                ".

(** renderDailySummary: more line, opening. *)
Definition summary_more_open : string :=
  "<div class=" ++ dq ++ "summary-item-more" ++ dq ++ ">还有 ".

(** renderDailySummary: more line, closing. *)
Definition summary_more_close : string :=
  " 项...</div>".

(** renderDailySummary: closing of the item list. *)
Definition summary_list_close : string :=
  "</div>".

(** renderOverdueList: opening of the list. *)
Definition overdue_list_open : string :=
  "<div class=" ++ dq ++ "overdue-items-list" ++ dq ++ ">".

(** renderOverdueList: item, up to the title. *)
Definition overdue_item_open : string :=
  "
                <div class=" ++ dq ++ "overdue-item" ++ dq ++ ">
                    <div class=" ++ dq ++ "overdue-item-header" ++ dq ++ ">
                        <span class=" ++ dq ++ "overdue-item-title" ++ dq ++ ">".

(** renderOverdueList: item, after the title. *)
Definition overdue_item_title_close : string :=
  "</span>
                        ".

(** renderOverdueList: due time, opening. *)
Definition overdue_time_open : string :=
  "<span class=" ++ dq ++ "overdue-time" ++ dq ++ ">应于 ".

(** renderOverdueList: due time, closing. *)
Definition overdue_time_close : string :=
  " 完成</span>".

(** renderOverdueList: item, end of its header. *)
Definition overdue_item_header_close : string :=
  "
                    </div>
                    ".

(** renderOverdueList: item text, opening. *)
Definition overdue_content_open : string :=
  "<p class=" ++ dq ++ "overdue-item-content" ++ dq ++ ">".

(** renderOverdueList: item text, closing. *)
Definition overdue_content_close : string :=
  "</p>".

(** renderOverdueList: item, closing. *)
Definition overdue_item_close : string :=
  "
                </div>
            ".

(** renderOverdueList: more line, opening. *)
Definition overdue_more_open : string :=
  "<div class=" ++ dq ++ "overdue-item-more" ++ dq ++ ">还有 ".

(** renderOverdueList: more line, closing. *)
Definition overdue_more_close : string :=
  " 项逾期...</div>".

(** renderOverdueList: closing of the list. *)
Definition overdue_list_close : string :=
  "</div>".

(** renderNormalContent: paragraph, opening. *)
Definition content_open : string :=
  "<p class=" ++ dq ++ "todo-content" ++ dq ++ ">".

(** renderNormalContent: paragraph, closing. *)
Definition content_close : string :=
  "</p>".

(** renderNormalContent: time block, opening. *)
Definition time_open : string :=
  "
                <div class=" ++ dq ++ "todo-time" ++ dq ++ ">
                    <svg viewBox=" ++ dq ++ "0 0 24 24" ++ dq ++ " width=" ++ dq ++ "14" ++ dq ++ " height=" ++ dq ++ "14" ++ dq ++ " fill=" ++ dq ++ "none" ++ dq ++ " stroke=" ++ dq ++ "currentColor" ++ dq ++ " stroke-width=" ++ dq ++ "2" ++ dq ++ ">
                        <circle cx=" ++ dq ++ "12" ++ dq ++ " cy=" ++ dq ++ "12" ++ dq ++ " r=" ++ dq ++ "10" ++ dq ++ "/>
                        <path d=" ++ dq ++ "M12 6v6l4 2" ++ dq ++ "/>
                    </svg>
                    <span>".

(** renderNormalContent: time block, closing. *)
Definition time_close : string :=
  "</span>
                </div>
            ".

(** renderNormalContent: tag block, opening. *)
Definition tags_open : string :=
  "
                <div class=" ++ dq ++ "todo-tags" ++ dq ++ ">
                    ".

(** renderNormalContent: one tag, opening. *)
Definition tag_open : string :=
  "<span class=" ++ dq ++ "todo-tag" ++ dq ++ ">".

(** renderNormalContent: one tag, closing. *)
Definition tag_close : string :=
  "</span>".

(** renderNormalContent: tag block, closing. *)
Definition tags_close : string :=
  "
                </div>
            ".

End Tpl.

(** ** Rendering *)

Section Rendering.

Variable rt : Runtime.

(** [getPriorityIcon]. *)
Definition getPriorityIcon (priority : value) : string :=
  if is_str priority "high" then "🔴"
  else if is_str priority "medium" then "🟡"
  else if is_str priority "low" then "🟢"
  else "🔵".

(** [n.toString().padStart(2, '0')]. *)
Definition pad2 (n : Z) : string := padStart (Zstr n) 2 "0".

Definition clock_text (t : Z) : string :=
  pad2 (getHours rt t) ++ ":" ++ pad2 (getMinutes rt t).

(** [formatTime].  With an invalid date every comparison of [diff] is false
    and the last branch prints [NaN] for each number. *)
Definition formatTime (timestamp : value) : string :=
  match Date_parse rt timestamp with
  | None => "NaN月NaN日 NaN:NaN"
  | Some date =>
      let diff := date - Date_now rt in
      if diff <? 0 then
        let absDiff := Z.abs diff in
        if absDiff <? 60000 then "刚才"
        else if absDiff <? 3600000 then Zstr (absDiff / 60000) ++ " 分钟前"
        else if absDiff <? 86400000 then Zstr (absDiff / 3600000) ++ " 小时前"
        else Zstr (absDiff / 86400000) ++ " 天前"
      else if diff <? 60000 then "马上"
      else if diff <? 3600000 then Zstr (diff / 60000) ++ " 分钟后"
      else if diff <? 86400000 then "今天 " ++ clock_text date
      else if diff <? 172800000 then "明天 " ++ clock_text date
      else Zstr (getMonth rt date + 1) ++ "月" ++ Zstr (getDate rt date) ++ "日 "
           ++ clock_text date
  end.

(** [escapeHtml]. *)
Definition escapeHtml (text : value) : string :=
  if negb (truthy text) then "" else text_to_html (to_string text).

(** ToNumber, and [v > 0]. *)
Definition to_number (v : value) : option Z :=
  match v with
  | VUndefined => None
  | VNull => Some 0
  | VBool b => Some (if b then 1 else 0)
  | VNum n => Some n
  | VStr s => StringToNumber rt s
  end.

Definition gt_zero (v : value) : bool :=
  match to_number v with
  | Some n => 0 <? n
  | None => false
  end.

Definition len {A : Type} (l : list A) : Z := Z.of_nat (List.length l).

(** One turn of the [forEach] of [renderDailySummary]. *)
Definition summary_item_html (item : Item) : string :=
  Tpl.summary_item_open ++ to_string (or_ (i_priority item) (VStr "normal"))
  ++ Tpl.summary_item_icon ++ getPriorityIcon (i_priority item)
  ++ Tpl.summary_item_content
  ++ escapeHtml (or_ (or_ (i_content item) (i_message item)) (i_title item))
  ++ Tpl.summary_item_close.

(** [renderDailySummary]. *)
Definition renderDailySummary (summary : Summary) (items : option (list Item)) : string :=
  let html :=
    Tpl.stats_total ++ to_string (total summary)
    ++ Tpl.stats_completed ++ to_string (completed summary)
    ++ Tpl.stats_pending ++ to_string (pending summary)
    ++ Tpl.stats_after_pending
    ++ (if gt_zero (overdue summary)
        then Tpl.stats_overdue_open ++ to_string (overdue summary) ++ Tpl.stats_overdue_close
        else "")
    ++ Tpl.stats_close in
  match items with
  | Some items =>
      if 0 <? len items then
        let html := html ++ Tpl.summary_list_open in
        let html :=
          fold_left (fun html item => html ++ summary_item_html item)
                    (slice 0 5 items) html in
        let html :=
          if 5 <? len items
          then html ++ Tpl.summary_more_open ++ Zstr (len items - 5) ++ Tpl.summary_more_close
          else html in
        html ++ Tpl.summary_list_close
      else html
  | None => html
  end.

(** One turn of the [forEach] of [renderOverdueList]. *)
Definition overdue_item_html (item : Item) : string :=
  Tpl.overdue_item_open
  ++ escapeHtml (or_ (or_ (i_title item) (i_content item)) (i_message item))
  ++ Tpl.overdue_item_title_close
  ++ (if truthy (i_scheduledTime item)
      then Tpl.overdue_time_open ++ formatTime (i_scheduledTime item) ++ Tpl.overdue_time_close
      else "")
  ++ Tpl.overdue_item_header_close
  ++ (if truthy (i_content item) && negb (strict_eq (i_title item) (i_content item))
      then Tpl.overdue_content_open ++ escapeHtml (i_content item) ++ Tpl.overdue_content_close
      else "")
  ++ Tpl.overdue_item_close.

(** [renderOverdueList]. *)
Definition renderOverdueList (items : list Item) : string :=
  let html := Tpl.overdue_list_open in
  let html :=
    fold_left (fun html item => html ++ overdue_item_html item) (slice 0 3 items) html in
  let html :=
    if 3 <? len items
    then html ++ Tpl.overdue_more_open ++ Zstr (len items - 3) ++ Tpl.overdue_more_close
    else html in
  html ++ Tpl.overdue_list_close.

(** [tags.map(tag => ...).join('')]. *)
Definition tags_html (tags : list value) : string :=
  String.concat "" (map (fun tag => Tpl.tag_open ++ escapeHtml tag ++ Tpl.tag_close) tags).

(** [renderNormalContent]. *)
Definition renderNormalContent (content time : value) (tags : option (list value)) : string :=
  let html := "" in
  let html :=
    if truthy content
    then html ++ Tpl.content_open ++ escapeHtml content ++ Tpl.content_close
    else html in
  let html :=
    if truthy time
    then html ++ Tpl.time_open ++ formatTime time ++ Tpl.time_close
    else html in
  match tags with
  | Some tags =>
      if 0 <? len tags
      then html ++ Tpl.tags_open ++ tags_html tags ++ Tpl.tags_close
      else html
  | None => html
  end.

(** The body of the popup: the branch [createReminderElement] takes on the
    type of the reminder.
    [if (type === 'daily_summary' && summary) ... else if (type === 'overdue'
    && items && items.length > 1) ... else ...]. *)
Definition body_html (config : Config) : string :=
  let normal := renderNormalContent (c_content config) (c_time config) (c_tags config) in
  match (if String.eqb (c_type config) "daily_summary" then c_summary config else None) with
  | Some summary => renderDailySummary summary (c_items config)
  | None =>
      match (if String.eqb (c_type config) "overdue" then c_items config else None) with
      | Some items => if 1 <? len items then renderOverdueList items else normal
      | None => normal
      end
  end.

(** The header of the popup. *)
Definition header_html (config : Config) : string :=
  Tpl.header_open ++ getPriorityIcon (c_priority config)
  ++ Tpl.header_title ++ escapeHtml (c_title config)
  ++ Tpl.header_close.

(** The action bar of the popup. *)
Definition actions_html (config : Config) : string :=
  Tpl.actions_open
  ++ (if truthy (c_agentName config)
      then Tpl.badge_open ++ escapeHtml (c_agentName config) ++ Tpl.badge_close
      else "")
  ++ Tpl.btn_view ++ to_string (c_todoId config)
  ++ Tpl.btn_dismiss ++ to_string (c_todoId config)
  ++ Tpl.btn_complete ++ to_string (c_todoId config)
  ++ Tpl.actions_close.

(** [createReminderElement]. *)
Definition createReminderElement (config : Config) : Element :=
  {| className :=
       "todo-reminder-popup priority-" ++ to_string (c_priority config)
       ++ " type-" ++ c_type config;
     data_todo_id := to_string (or_ (c_todoId config) (VNum (Date_now rt)));
     innerHTML :=
       header_html config ++ body_html config ++ Tpl.body_close ++ actions_html config |}.

End Rendering.

(** ** The manager and its effects *)

(** A value of [activeReminders]. *)
Record Tracked : Type := {
  element : Element;
  data : Payload
}.

(** The fields of a [TodoReminderManager].  [container] is [None] when
    [init] found no [todoReminderContainer], otherwise the children appended
    so far; [audioContext] tells whether [init] could create one;
    [activeReminders] lists the entries of the [Map] in insertion order. *)
Record Manager : Type := {
  container : option (list Element);
  audioContext : bool;
  activeReminders : list (value * Tracked)
}.

(** The constructor with [init]: [found] is the element with the id
    [todoReminderContainer] when the document has one, [audio] tells whether
    an audio context can be created.  Without the container [init] returns
    before it creates the audio context. *)
Definition init (found : option (list Element)) (audio : bool) : Manager :=
  match found with
  | None => {| container := None; audioContext := false; activeReminders := [] |}
  | Some children =>
      {| container := Some children; audioContext := audio; activeReminders := [] |}
  end.

(** What a call leaves behind besides the new fields, in the order it
    happened.  [PlaySound] is the call of [playSound]; [OscillatorStart] and
    [SetTimeoutOscillator] are the tones it starts or schedules (frequency in
    Hz, gain in hundredths, duration and delay in milliseconds). *)
Inductive Effect : Type :=
  | AppendChild (el : Element)
  | RequestAnimationFrame (shake : bool)
  | MapSet (key : value)
  | ConsoleWarn (arg : value)
  | PlaySound (priority : value)
  | OscillatorStart (frequency gain duration : Z)
  | SetTimeoutOscillator (delay frequency gain duration : Z).

(** [Map.prototype.set]: an existing key keeps its place. *)
Fixpoint map_set {T : Type} (k : value) (v : T) (m : list (value * T)) : list (value * T) :=
  match m with
  | [] => [(k, v)]
  | (k', v') :: rest =>
      if strict_eq k' k then (k, v) :: rest else (k', v') :: map_set k v rest
  end.

(** A call either returns or throws a [TypeError]; both leave a manager and
    the effects so far. *)
Inductive Outcome (A : Type) : Type :=
  | Returned (a : A) (m : Manager) (log : list Effect)
  | TypeError (m : Manager) (log : list Effect).
Arguments Returned {A} a m log.
Arguments TypeError {A} m log.

Definition M (A : Type) : Type := Manager -> list Effect -> Outcome A.

Definition ret {A : Type} (a : A) : M A := fun m log => Returned a m log.

Definition bind {A B : Type} (c : M A) (k : A -> M B) : M B :=
  fun m log =>
    match c m log with
    | Returned a m' log' => k a m' log'
    | TypeError m' log' => TypeError m' log'
    end.

Notation "x <- c ;; k" := (bind c (fun x => k))
  (at level 61, c at next level, right associativity).
Notation "c ;; k" := (bind c (fun _ => k))
  (at level 61, right associativity).

Definition emit (e : Effect) : M unit := fun m log => Returned tt m (log ++ [e])%list.

Definition throw {A : Type} : M A := fun m log => TypeError m log.

(** [this.container.appendChild(el)]. *)
Definition appendChild (el : Element) : M unit :=
  fun m log =>
    match container m with
    | None => throw m log
    | Some children =>
        Returned tt
          {| container := Some (children ++ [el])%list;
             audioContext := audioContext m;
             activeReminders := activeReminders m |}
          (log ++ [AppendChild el])%list
    end.

(** [this.activeReminders.set(key, entry)]. *)
Definition activeReminders_set (key : value) (entry : Tracked) : M unit :=
  fun m log =>
    Returned tt
      {| container := container m;
         audioContext := audioContext m;
         activeReminders := map_set key entry (activeReminders m) |}
      (log ++ [MapSet key])%list.

Section Handling.

Variable rt : Runtime.

(** [displayReminder]. *)
Definition displayReminder (reminderEl : Element) (data : Payload) : M unit :=
  appendChild reminderEl ;;
  emit (RequestAnimationFrame (is_str (p_priority data) "high")) ;;
  let todoId := or_ (p_todoId data) (VNum (Date_now rt)) in
  activeReminders_set todoId {| element := reminderEl; data := data |}.

(** The object literal [showNormalReminder] passes on. *)
Definition normalConfig (data : Payload) : Config :=
  {| c_type := "normal";
     c_priority := or_ (p_priority data) (VStr "normal");
     c_title := or_ (p_title data) (VStr "待办提醒");
     c_content := or_ (p_content data) (p_message data);
     c_time := or_ (p_scheduledTime data) (p_timestamp data);
     c_tags := Some (match p_tags data with Some tags => tags | None => [] end);
     c_summary := None;
     c_items := None;
     c_agentName := p_agentName data;
     c_todoId := p_todoId data |}.

(** [showNormalReminder]. *)
Definition showNormalReminder (data : Payload) : M unit :=
  let reminder := createReminderElement rt (normalConfig data) in
  displayReminder reminder data.

(** [data.items || [data]]. *)
Definition overdueItems (data : Payload) : list Item :=
  match p_items data with
  | Some items => items
  | None => [item_of_payload data]
  end.

(** The object literal [showOverdueAlert] passes on. *)
Definition overdueConfig (data : Payload) : Config :=
  let overdueItems := overdueItems data in
  {| c_type := "overdue";
     c_priority := VStr "high";
     c_title := VStr "⚠️ 待办逾期提醒";
     c_content :=
       if 1 <? len overdueItems
       then VStr ("您有 " ++ Zstr (len overdueItems) ++ " 个待办事项已逾期")
       else
         match nth_error overdueItems 0 with
         | Some first => or_ (i_content first) (i_message first)
         | None => VUndefined
         end;
     c_time := VUndefined;
     c_tags := None;
     c_summary := None;
     c_items := Some overdueItems;
     c_agentName := p_agentName data;
     c_todoId := p_todoId data |}.

(** [showOverdueAlert]. *)
Definition showOverdueAlert (data : Payload) : M unit :=
  let reminder := createReminderElement rt (overdueConfig data) in
  displayReminder reminder data.

(** [data.summary || {}]. *)
Definition summaryData (data : Payload) : Summary :=
  match p_summary data with
  | Some s => s
  | None =>
      {| total := VUndefined; completed := VUndefined;
         pending := VUndefined; overdue := VUndefined |}
  end.

(** The object literal [showDailySummary] passes on. *)
Definition dailySummaryConfig (data : Payload) : Config :=
  let summaryData := summaryData data in
  let items := match p_items data with Some items => items | None => [] end in
  {| c_type := "daily_summary";
     c_priority := VStr "normal";
     c_title := VStr "📋 今日待办汇总";
     c_content := VUndefined;
     c_time := VUndefined;
     c_tags := None;
     c_summary :=
       Some {| total := or_ (total summaryData) (VNum (len items));
               completed := or_ (completed summaryData) (VNum 0);
               pending := or_ (pending summaryData) (VNum (len items));
               overdue := or_ (overdue summaryData) (VNum 0) |};
     c_items := Some items;
     c_agentName := p_agentName data;
     c_todoId := p_todoId data |}.

(** [showDailySummary]. *)
Definition showDailySummary (data : Payload) : M unit :=
  let reminder := createReminderElement rt (dailySummaryConfig data) in
  displayReminder reminder data.

(** [playSound].  The gain ramps are part of the tone and not listed. *)
Definition playSound (priority : value) : M unit :=
  let priority := match priority with VUndefined => VStr "normal" | p => p end in
  emit (PlaySound priority) ;;
  fun m log =>
    if negb (audioContext m) then Returned tt m log
    else if is_str priority "high" then
      (emit (OscillatorStart 800 30 300) ;;
       emit (SetTimeoutOscillator 200 900 30 300)) m log
    else if is_str priority "medium" then
      emit (OscillatorStart 600 20 200) m log
    else
      emit (OscillatorStart 400 15 150) m log.

(** [!data], and [data.type] where it is read. *)
Definition falsy (data : Inbound) : bool :=
  match data with
  | Prim v => negb (truthy v)
  | Obj _ => false
  end.

Definition type_of (data : Inbound) : value :=
  match data with
  | Prim _ => VUndefined
  | Obj p => p_type p
  end.

(** [handleTodoReminder]. *)
Definition handleTodoReminder (data : Inbound) : M unit :=
  if falsy data || negb (is_str (type_of data) "TODO_REMINDER") then ret tt
  else
    match data with
    | Prim _ => ret tt
    | Obj data =>
        (if is_str (p_reminderType data) "daily_summary" then showDailySummary data
         else if is_str (p_reminderType data) "overdue" then showOverdueAlert data
         else if is_str (p_reminderType data) "normal" then showNormalReminder data
         else emit (ConsoleWarn (p_reminderType data))) ;;
        playSound (or_ (p_priority data) (VStr "normal"))
    end.

End Handling.

(** The effects of a call, whether it returned or threw. *)
Definition effects {A : Type} (o : Outcome A) : list Effect :=
  match o with
  | Returned _ _ log => log
  | TypeError _ log => log
  end.

(** The manager a call leaves. *)
Definition manager_after {A : Type} (o : Outcome A) : Manager :=
  match o with
  | Returned _ m _ => m
  | TypeError m _ => m
  end.

Definition returned {A : Type} (o : Outcome A) : bool :=
  match o with
  | Returned _ _ _ => true
  | TypeError _ _ => false
  end.

(** ** The history ledger *)

Module HistoryLedger.

Inductive Action : Type := Completed | Snoozed | Dismissed.

(** Modelled from the spec: the entries of the history ledger, which the
    manager's source does not define.  The metadata of an entry is left out. *)
Record HistoryEntry : Type := {
  id : string;
  action : Action;
  reminderId : value;
  titleSnapshot : string;
  contentSnapshot : string;
  priority : value;
  kind : string;
  timestamp : Z;
  agentName : value
}.

(** Modelled from the spec: the cap of the ledger. *)
Definition MAX_ENTRIES : nat := 1000.

(** Modelled from the spec: the order of the ledger, most recent first.  An
    entry goes before the first one that is strictly older. *)
Fixpoint insert_recent (e : HistoryEntry) (l : list HistoryEntry) : list HistoryEntry :=
  match l with
  | [] => [e]
  | x :: rest =>
      if timestamp x <? timestamp e then e :: x :: rest
      else x :: insert_recent e rest
  end.

(** [newer_or_same a b]: [a] is at least as recent as [b]. *)
Definition newer_or_same (a b : HistoryEntry) : Prop := timestamp b <= timestamp a.

Definition sort_recent (l : list HistoryEntry) : list HistoryEntry :=
  fold_right insert_recent [] l.

(** Modelled from the spec: cap enforcement, which the source does not
    contain: whenever the size exceeds the cap, only the cap's number of most
    recent entries by timestamp is retained. *)
Definition enforce_cap (l : list HistoryEntry) : list HistoryEntry :=
  if (MAX_ENTRIES <? List.length l)%nat then firstn MAX_ENTRIES (sort_recent l) else l.

(** Modelled from the spec: [append], which the source does not contain: the
    entry is added, then the cap is enforced on what will be persisted. *)
Definition append (e : HistoryEntry) (l : list HistoryEntry) : list HistoryEntry :=
  enforce_cap (l ++ [e])%list.

(** The ledger after a sequence of appends to an empty one. *)
Definition appends (es : list HistoryEntry) : list HistoryEntry :=
  fold_left (fun l e => append e l) es [].

(** An entry that was persisted at time [t]. *)
Definition entry_at (t : Z) : HistoryEntry :=
  {| id := Zstr t; action := Completed; reminderId := VNum t;
     titleSnapshot := "task"; contentSnapshot := ""; priority := VStr "normal";
     kind := "normal"; timestamp := t; agentName := VUndefined |}.

(** The entries persisted at the times [1], ..., [n], oldest first. *)
Definition entries_upto (n : nat) : list HistoryEntry :=
  map (fun k => entry_at (Z.of_nat k)) (seq 1 n).

(** Whether an entry with this id is in the ledger. *)
Definition mem_id (i : string) (l : list HistoryEntry) : bool :=
  existsb (fun e => String.eqb (id e) i) l.

End HistoryLedger.

(** ** The derivation of the overdue count the specification describes *)

Section OverdueDerivation.

Variable rt : Runtime.

(** The count of the specification: among the items not marked completed,
    those with no deadline and those whose deadline is strictly before now.
    It follows the words of the specification, to be compared with what
    [showDailySummary] displays. *)
Definition spec_item_overdue (item : Item) : bool :=
  negb (is_str (i_status item) "completed")
  && (negb (truthy (i_deadline item))
      || match Date_parse rt (i_deadline item) with
         | Some t => t <? Date_now rt
         | None => false
         end).

Definition spec_overdue_count (items : list Item) : Z :=
  len (filter spec_item_overdue items).

End OverdueDerivation.

(** ** A host and sample data, to run the model on *)

Module Sample.

(** Days since the epoch to (month from 0, day of the month). *)
Definition civil (days : Z) : Z * Z :=
  let z := days + 719468 in
  let era := z / 146097 in
  let doe := z - era * 146097 in
  let yoe := (doe - doe / 1460 + doe / 36524 - doe / 146096) / 365 in
  let doy := doe - (365 * yoe + yoe / 4 - yoe / 100) in
  let mp := (5 * doy + 2) / 153 in
  let d := doy - (153 * mp + 2) / 5 + 1 in
  let m := if mp <? 10 then mp + 3 else mp - 9 in
  (m - 1, d).

(** A host in UTC whose clock reads 2023-11-14T22:13:20Z; it builds dates
    from numbers only. *)
Definition runtime : Runtime :=
  {| Date_now := 1700000000000;
     Date_parse := fun v =>
       match v with
       | VNum n => Some n
       | VNull => Some 0
       | VBool b => Some (if b then 1 else 0)
       | _ => None
       end;
     getHours := fun t => (t / 3600000) mod 24;
     getMinutes := fun t => (t / 60000) mod 60;
     getMonth := fun t => fst (civil (t / 86400000));
     getDate := fun t => snd (civil (t / 86400000));
     StringToNumber := fun s =>
       if String.eqb s "" then Some 0
       else option_map Z.of_int (NilEmpty.int_of_string s) |}.

(** A manager right after a successful [init]. *)
Definition manager : Manager := Eval cbv in init (Some []) true.

(** [{ type: 'TODO_REMINDER', reminderType }]. *)
Definition payload (reminderType : string) : Payload :=
  {| p_type := VStr "TODO_REMINDER";
     p_reminderType := VStr reminderType;
     p_priority := VUndefined;
     p_title := VUndefined;
     p_content := VUndefined;
     p_message := VUndefined;
     p_scheduledTime := VUndefined;
     p_timestamp := VUndefined;
     p_tags := None;
     p_items := None;
     p_summary := None;
     p_agentName := VUndefined;
     p_todoId := VUndefined |}.

(** [{ content }]. *)
Definition item (content : string) : Item :=
  {| i_title := VUndefined; i_content := VStr content; i_message := VUndefined;
     i_priority := VUndefined; i_scheduledTime := VUndefined;
     i_status := VUndefined; i_deadline := VUndefined |}.

End Sample.

(** ** Reading a log of effects *)

Definition is_appendChild (e : Effect) : bool :=
  match e with AppendChild _ => true | _ => false end.

Definition is_mapSet (e : Effect) : bool :=
  match e with MapSet _ => true | _ => false end.

Definition is_playSound (e : Effect) : bool :=
  match e with PlaySound _ => true | _ => false end.

(** The tones [playSound] starts or schedules. *)
Definition is_tone (e : Effect) : bool :=
  match e with
  | OscillatorStart _ _ _ | SetTimeoutOscillator _ _ _ _ => true
  | _ => false
  end.

(** How many times [playSound] was called. *)
Definition audio_triggers (log : list Effect) : nat :=
  List.length (filter is_playSound log).

(** The popups a call appended to the container. *)
Definition popups (log : list Effect) : list Element :=
  flat_map (fun e => match e with AppendChild el => [el] | _ => [] end) log.

(** The three values of [reminderType] the [switch] of [handleTodoReminder]
    has a case for, with the configuration each case builds. *)
Definition popup_config (data : Payload) : option Config :=
  if is_str (p_reminderType data) "daily_summary" then Some (dailySummaryConfig data)
  else if is_str (p_reminderType data) "overdue" then Some (overdueConfig data)
  else if is_str (p_reminderType data) "normal" then Some (normalConfig data)
  else None.

(** The payload with another item list. *)
Definition set_items (items : option (list Item)) (d : Payload) : Payload :=
  {| p_type := p_type d;
     p_reminderType := p_reminderType d;
     p_priority := p_priority d;
     p_title := p_title d;
     p_content := p_content d;
     p_message := p_message d;
     p_scheduledTime := p_scheduledTime d;
     p_timestamp := p_timestamp d;
     p_tags := p_tags d;
     p_items := items;
     p_summary := p_summary d;
     p_agentName := p_agentName d;
     p_todoId := p_todoId d |}.

(** The payload with other texts. *)
Definition set_texts (priority title content : value) (d : Payload) : Payload :=
  {| p_type := p_type d;
     p_reminderType := p_reminderType d;
     p_priority := priority;
     p_title := title;
     p_content := content;
     p_message := p_message d;
     p_scheduledTime := p_scheduledTime d;
     p_timestamp := p_timestamp d;
     p_tags := p_tags d;
     p_items := p_items d;
     p_summary := p_summary d;
     p_agentName := p_agentName d;
     p_todoId := p_todoId d |}.

(** The place of the first effect of a kind in a log. *)
Fixpoint position (kind : Effect -> bool) (log : list Effect) : option nat :=
  match log with
  | [] => None
  | e :: rest => if kind e then Some O else option_map S (position kind rest)
  end.

(** Whether a character occurs in a string. *)
Fixpoint has_char (c : ascii) (s : string) : bool :=
  match s with
  | EmptyString => false
  | String x rest => Ascii.eqb x c || has_char c rest
  end.

(** Sample payloads. *)
Module Inputs.

(** [{ type: 'TODO_REMINDER', reminderType: 'overdue', priority: 'medium' }]:
    an overdue reminder that carries another priority.  The manager reads
    properties of the payload itself only, so nested sections are left out. *)
Definition overdue_medium : Payload :=
  set_texts (VStr "medium") VUndefined VUndefined (Sample.payload "overdue").

(** A daily summary sent with priority [high] and six items. *)
Definition summary_high : Payload :=
  set_items
    (Some [Sample.item "a"; Sample.item "b"; Sample.item "c";
           Sample.item "d"; Sample.item "e"; Sample.item "f"])
    (set_texts (VStr "high") VUndefined VUndefined (Sample.payload "daily_summary")).

(** An overdue batch of four items. *)
Definition overdue_batch : Payload :=
  set_items
    (Some [Sample.item "a"; Sample.item "b"; Sample.item "c"; Sample.item "d"])
    (Sample.payload "overdue").

(** A normal reminder with a title and nothing else. *)
Definition title_only : Payload :=
  set_texts VUndefined (VStr "Pay invoice") VUndefined (Sample.payload "normal").

(** A normal reminder with a text. *)
Definition with_content : Payload :=
  set_texts VUndefined (VStr "Pay invoice") (VStr "before Friday") (Sample.payload "normal").

(** A daily summary with one open item that has no deadline, and no counts. *)
Definition summary_one_open : Payload :=
  set_items (Some [Sample.item "write report"]) (Sample.payload "daily_summary").

(** A reminder of a kind the manager has no case for. *)
Definition weekly : Payload :=
  set_texts VUndefined VUndefined (VStr "hello") (Sample.payload "weekly").

(** A message of another type. *)
Definition chat_message : Payload :=
  {| p_type := VStr "CHAT_MESSAGE";
     p_reminderType := VStr "normal";
     p_priority := VUndefined;
     p_title := VUndefined;
     p_content := VStr "hello";
     p_message := VUndefined;
     p_scheduledTime := VUndefined;
     p_timestamp := VUndefined;
     p_tags := None;
     p_items := None;
     p_summary := None;
     p_agentName := VUndefined;
     p_todoId := VUndefined |}.

(** A daily summary whose single item carries markup in its priority. *)
Definition markup : string := "x" ++ dq ++ "><img src=x onerror=alert(1)>".

Definition summary_markup_priority : Payload :=
  set_items
    (Some [{| i_title := VUndefined; i_content := VStr "hi"; i_message := VUndefined;
              i_priority := VStr markup; i_scheduledTime := VUndefined;
              i_status := VUndefined; i_deadline := VUndefined |}])
    (Sample.payload "daily_summary").

(** A normal reminder whose [todoId] carries markup. *)
Definition markup_todo_id : Payload :=
  {| p_type := VStr "TODO_REMINDER";
     p_reminderType := VStr "normal";
     p_priority := VUndefined;
     p_title := VStr "Pay invoice";
     p_content := VUndefined;
     p_message := VUndefined;
     p_scheduledTime := VUndefined;
     p_timestamp := VUndefined;
     p_tags := None;
     p_items := None;
     p_summary := None;
     p_agentName := VUndefined;
     p_todoId := VStr markup |}.

End Inputs.

(** ** Looking up and closing reminders *)

(** [Map.prototype.get]. *)
Fixpoint map_get {T : Type} (k : value) (m : list (value * T)) : option T :=
  match m with
  | [] => None
  | (k', v) :: rest => if strict_eq k' k then Some v else map_get k rest
  end.

(** [Map.prototype.delete]. *)
Fixpoint map_delete {T : Type} (k : value) (m : list (value * T)) : list (value * T) :=
  match m with
  | [] => []
  | (k', v) :: rest =>
      if strict_eq k' k then map_delete k rest else (k', v) :: map_delete k rest
  end.

(** The keys of a [Map], in insertion order. *)
Definition map_keys {T : Type} (m : list (value * T)) : list value := map fst m.

(** The manager with another [activeReminders]. *)
Definition with_reminders (reminders : list (value * Tracked)) (m : Manager) : Manager :=
  {| container := container m;
     audioContext := audioContext m;
     activeReminders := reminders |}.

(** What [closeReminder] can be called with.  [ById] is a string;
    [ByElement popup] is an [HTMLElement], [popup] being what
    [closest('.todo-reminder-popup')] finds from it; [ByEvent popup] is an
    event whose target is such an element; [ByOther] is anything else. *)
Inductive CloseArg : Type :=
  | ById (id : string)
  | ByElement (popup : option Element)
  | ByEvent (popup : option Element)
  | ByOther.

(** What the closing functions leave behind besides the new manager.
    [SetTimeoutRemoveChild] is the timer that takes the popup out of its
    parent; the three toast effects are the element [showToast] appends and
    its timers (delays in milliseconds). *)
Inductive UiEffect : Type :=
  | ClassListRemove (el : Element) (class : string)
  | SetTimeoutRemoveChild (delay : Z) (el : Element)
  | ConsoleLog (message : string) (arg : CloseArg)
  | OpenTodoDetail (arg : CloseArg)
  | ToastAppend (class : string) (text : string)
  | SetTimeoutToastShow (delay : Z)
  | SetTimeoutToastRemove (delay : Z) (fade : Z).

(** The part of the page the closing functions look at: whether the
    document has the toast container, and whether
    [window.electronAPI.openTodoDetail] exists. *)
Record Page : Type := {
  toastContainer : bool;
  openTodoDetail : bool
}.

(** The first half of [closeReminder]: the popup to close, if any, and the
    manager after the [delete]. *)
Definition close_target (arg : CloseArg) (m : Manager) : option Element * Manager :=
  match arg with
  | ById id =>
      match map_get (VStr id) (activeReminders m) with
      | Some reminder =>
          (Some (element reminder),
           with_reminders (map_delete (VStr id) (activeReminders m)) m)
      | None => (None, m)
      end
  | ByElement popup | ByEvent popup =>
      match popup with
      | Some reminderEl =>
          let todoId := data_todo_id reminderEl in
          if negb (String.eqb todoId "")
          then (Some reminderEl,
                with_reminders (map_delete (VStr todoId) (activeReminders m)) m)
          else (Some reminderEl, m)
      | None => (None, m)
      end
  | ByOther => (None, m)
  end.

(** [closeReminder]. *)
Definition closeReminder (arg : CloseArg) (m : Manager) : Manager * list UiEffect :=
  let (reminderEl, m') := close_target arg m in
  (m',
   match reminderEl with
   | Some el => [ClassListRemove el "show"; SetTimeoutRemoveChild 300 el]
   | None => []
   end).

(** [dismissReminder]. *)
Definition dismissReminder (todoId : CloseArg) (m : Manager) : Manager * list UiEffect :=
  let (m', log) := closeReminder todoId m in
  (m', (log ++ [ConsoleLog "稍后提醒:" todoId])%list).

(** [viewTodo]. *)
Definition viewTodo (page : Page) (todoId : CloseArg) (m : Manager) : Manager * list UiEffect :=
  let (m', log) := closeReminder todoId m in
  (m',
   (log ++ [ConsoleLog "查看待办:" todoId]
    ++ (if openTodoDetail page then [OpenTodoDetail todoId] else []))%list).

(** [showToast]; [type] defaults to [info]. *)
Definition showToast (page : Page) (message : string) (type : option string) : list UiEffect :=
  let type := match type with Some t => t | None => "info" end in
  if negb (toastContainer page) then []
  else [ToastAppend ("toast toast-" ++ type) message;
        SetTimeoutToastShow 10;
        SetTimeoutToastRemove 3000 300].

(** [completeTodo]. *)
Definition completeTodo (page : Page) (todoId : CloseArg) (m : Manager)
  : Manager * list UiEffect :=
  let (m', log) := closeReminder todoId m in
  (m',
   (log ++ [ConsoleLog "完成待办:" todoId]
    ++ showToast page "待办已标记为完成" (Some "success"))%list).

(** The [forEach] of [clearAll] over the entries the map had when it
    started: an entry is visited when its turn comes if it is still in the
    map, and its element, a popup, is closed as an [HTMLElement]. *)
Fixpoint forEach_close (entries : list (value * Tracked)) (m : Manager)
  : Manager * list UiEffect :=
  match entries with
  | [] => (m, [])
  | (k, reminder) :: rest =>
      match map_get k (activeReminders m) with
      | None => forEach_close rest m
      | Some reminder =>
          let (m1, log1) := closeReminder (ByElement (Some (element reminder))) m in
          let (m2, log2) := forEach_close rest m1 in
          (m2, (log1 ++ log2)%list)
      end
  end.

(** [clearAll]. *)
Definition clearAll (m : Manager) : Manager * list UiEffect :=
  let (m', log) := forEach_close (activeReminders m) m in
  (with_reminders [] m', log).

(** The closing effects of one popup. *)
Definition closing (el : Element) : list UiEffect :=
  [ClassListRemove el "show"; SetTimeoutRemoveChild 300 el].

(** Whether a text holds a no-break space (bytes 194 160). *)
Fixpoint has_nbsp (s : string) : bool :=
  match s with
  | EmptyString => false
  | String c rest =>
      match rest with
      | String c2 _ =>
          (Ascii.eqb c (ascii_of_nat 194) && Ascii.eqb c2 (ascii_of_nat 160))
          || has_nbsp rest
      | EmptyString => false
      end
  end.

(** The payload with another [todoId]. *)
Definition set_todoId (todoId : value) (d : Payload) : Payload :=
  {| p_type := p_type d;
     p_reminderType := p_reminderType d;
     p_priority := p_priority d;
     p_title := p_title d;
     p_content := p_content d;
     p_message := p_message d;
     p_scheduledTime := p_scheduledTime d;
     p_timestamp := p_timestamp d;
     p_tags := p_tags d;
     p_items := p_items d;
     p_summary := p_summary d;
     p_agentName := p_agentName d;
     p_todoId := todoId |}.

(** A page with a toast container and the detail window. *)
Definition full_page : Page := {| toastContainer := true; openTodoDetail := true |}.

(** The reminders are tracked by their ids: every key is a non-empty string,
    the one the popup carries in [data-todo-id], and no key occurs twice. *)
Definition tracked_by_id (m : Manager) : Prop :=
  Forall (fun entry =>
            exists s, fst entry = VStr s /\ s <> ""
                      /\ data_todo_id (element (snd entry)) = s)
         (activeReminders m)
  /\ NoDup (map_keys (activeReminders m)).

(** The key [displayReminder] tracks a payload under. *)
Definition tracking_key (rt : Runtime) (d : Payload) : value :=
  or_ (p_todoId d) (VNum (Date_now rt)).

(** More sample data. *)
Module Tracked.

(** A normal reminder with the id [t1]. *)
Definition first : Payload := set_todoId (VStr "t1") Inputs.with_content.

(** Another reminder with the same id. *)
Definition again : Payload := set_todoId (VStr "t1") Inputs.overdue_batch.

(** A reminder whose id is a number. *)
Definition numbered : Payload := set_todoId (VNum 5) Inputs.with_content.

(** The manager after [first] was shown. *)
Definition shown : Manager :=
  manager_after (handleTodoReminder Sample.runtime (Obj first) Sample.manager []).

(** The manager after [numbered] was shown. *)
Definition shown_numbered : Manager :=
  manager_after (handleTodoReminder Sample.runtime (Obj numbered) Sample.manager []).

(** A manager that found no container. *)
Definition broken : Manager := Eval cbv in init None true.

End Tracked.

(** Whether [escapeHtml] has something to replace in a text. *)
Definition has_special (s : string) : bool :=
  has_char "&" s || has_char "<" s || has_char ">" s || has_nbsp s.

(** ** The parts of a daily summary's body *)

(** The stats before the overdue stat: total, completed and pending. *)
Definition summary_counts_html (summary : Summary) : string :=
  Tpl.stats_total ++ to_string (total summary)
  ++ Tpl.stats_completed ++ to_string (completed summary)
  ++ Tpl.stats_pending ++ to_string (pending summary)
  ++ Tpl.stats_after_pending.

(** The overdue stat showing [count]. *)
Definition overdue_stat_html (count : value) : string :=
  Tpl.stats_overdue_open ++ to_string count ++ Tpl.stats_overdue_close.

(** The item list after the stats: the first five items and the line that
    counts the rest. *)
Definition summary_list_html (items : list Item) : string :=
  if 0 <? len items
  then Tpl.summary_list_open
       ++ String.concat "" (map summary_item_html (firstn 5 items))
       ++ (if 5 <? len items
           then Tpl.summary_more_open ++ Zstr (len items - 5) ++ Tpl.summary_more_close
           else "")
       ++ Tpl.summary_list_close
  else "".

(** [data.items || []]. *)
Definition summary_items (d : Payload) : list Item :=
  match p_items d with Some items => items | None => [] end.

(** Daily summaries that carry an overdue count and no items. *)
Module Counted.

Definition with_overdue (count : value) : Payload :=
  {| p_type := VStr "TODO_REMINDER";
     p_reminderType := VStr "daily_summary";
     p_priority := VUndefined;
     p_title := VUndefined;
     p_content := VUndefined;
     p_message := VUndefined;
     p_scheduledTime := VUndefined;
     p_timestamp := VUndefined;
     p_tags := None;
     p_items := None;
     p_summary :=
       Some {| total := VNum 4; completed := VNum 1; pending := VNum 3; overdue := count |};
     p_agentName := VUndefined;
     p_todoId := VUndefined |}.

End Counted.

(** * Properties *)

(** ** Strings and values *)

Lemma append_assoc (a b c : string) : (a ++ b) ++ c = a ++ (b ++ c).
Proof.
  induction a as [|ch a IH]; simpl.
  - reflexivity.
  - now rewrite IH.
Qed.

Lemma append_nil_r (a : string) : a ++ "" = a.
Proof.
  induction a as [|ch a IH]; simpl; [reflexivity | now rewrite IH].
Qed.

Lemma concat_cons (x : string) (xs : list string) :
  String.concat "" (x :: xs) = x ++ String.concat "" xs.
Proof.
  destruct xs as [|y ys]; simpl.
  - now rewrite append_nil_r.
  - reflexivity.
Qed.

(** A [forEach] that appends to [html] adds the pieces in order. *)
Lemma forEach_append {A : Type} (piece : A -> string) (l : list A) (html : string) :
  fold_left (fun html item => html ++ piece item) l html
  = html ++ String.concat "" (map piece l).
Proof.
  revert html; induction l as [|x l IH]; intros html.
  - simpl. now rewrite append_nil_r.
  - cbn [fold_left map]. rewrite IH, concat_cons. apply append_assoc.
Qed.

Lemma is_str_true (v : value) (lit : string) : is_str v lit = true <-> v = VStr lit.
Proof.
  unfold is_str; destruct v; simpl; split; intros H; try discriminate.
  - apply String.eqb_eq in H. now subst.
  - injection H as ->. apply String.eqb_refl.
Qed.

Lemma is_str_false (v : value) (lit : string) : is_str v lit = false <-> v <> VStr lit.
Proof.
  rewrite <- is_str_true. destruct (is_str v lit); split; congruence.
Qed.

Lemma value_eq_dec (a b : value) : {a = b} + {a <> b}.
Proof.
  decide equality; [apply Bool.bool_dec | apply Z.eq_dec | apply string_dec].
Qed.

(** ** Running the manager *)

Lemma bind_returned {A B : Type} (c : M A) (k : A -> M B) m log a m' log' :
  c m log = Returned a m' log' -> bind c k m log = k a m' log'.
Proof. unfold bind. now intros ->. Qed.

Lemma displayReminder_run rt el d m log children :
  container m = Some children ->
  displayReminder rt el d m log
  = Returned tt
      {| container := Some (children ++ [el])%list;
         audioContext := audioContext m;
         activeReminders :=
           map_set (or_ (p_todoId d) (VNum (Date_now rt)))
                   {| element := el; data := d |} (activeReminders m) |}
      (log ++ [AppendChild el;
               RequestAnimationFrame (is_str (p_priority d) "high");
               MapSet (or_ (p_todoId d) (VNum (Date_now rt)))])%list.
Proof.
  intros Hc. unfold displayReminder, bind, appendChild, emit, activeReminders_set.
  rewrite Hc. cbn [container audioContext activeReminders].
  now rewrite <- !app_assoc.
Qed.

Lemma displayReminder_throws rt el d m log :
  container m = None -> displayReminder rt el d m log = TypeError m log.
Proof.
  intros Hc. unfold displayReminder, bind, appendChild. now rewrite Hc.
Qed.

(** [playSound] returns, leaves the manager as it is, and logs its call
    followed by tones only. *)
Lemma playSound_run (p : value) m log :
  p <> VUndefined ->
  exists tones,
    playSound p m log = Returned tt m (log ++ PlaySound p :: tones)%list
    /\ forallb is_tone tones = true
    /\ (audioContext m = false -> tones = []).
Proof.
  intros Hp. unfold playSound, bind, emit.
  assert (Hd : match p with VUndefined => VStr "normal" | _ => p end = p)
    by (destruct p; congruence).
  rewrite Hd.
  destruct (audioContext m); cbn [negb].
  - destruct (is_str p "high"); [|destruct (is_str p "medium")].
    + exists [OscillatorStart 800 30 300; SetTimeoutOscillator 200 900 30 300].
      rewrite <- !app_assoc. repeat split. discriminate.
    + exists [OscillatorStart 600 20 200].
      rewrite <- !app_assoc. repeat split. discriminate.
    + exists [OscillatorStart 400 15 150].
      rewrite <- !app_assoc. repeat split. discriminate.
  - exists []. repeat split.
Qed.

Lemma or_normal_defined (v : value) : or_ v (VStr "normal") <> VUndefined.
Proof. unfold or_. destruct v as [| |[]|n|s]; simpl; try discriminate.
  - destruct (n =? 0); discriminate.
  - destruct (String.eqb s ""); discriminate.
Qed.

(** A payload of a known kind: the popup is appended and tracked, then the
    sound is played. *)
Lemma handle_known rt d cfg m children :
  container m = Some children ->
  p_type d = VStr "TODO_REMINDER" ->
  popup_config d = Some cfg ->
  handleTodoReminder rt (Obj d) m []
  = playSound (or_ (p_priority d) (VStr "normal"))
      {| container := Some (children ++ [createReminderElement rt cfg])%list;
         audioContext := audioContext m;
         activeReminders :=
           map_set (or_ (p_todoId d) (VNum (Date_now rt)))
                   {| element := createReminderElement rt cfg; data := d |}
                   (activeReminders m) |}
      [AppendChild (createReminderElement rt cfg);
       RequestAnimationFrame (is_str (p_priority d) "high");
       MapSet (or_ (p_todoId d) (VNum (Date_now rt)))].
Proof.
  intros Hc Ht Hk. unfold handleTodoReminder.
  cbn [falsy type_of orb]. rewrite Ht.
  replace (is_str (VStr "TODO_REMINDER") "TODO_REMINDER") with true by reflexivity.
  cbn [negb]. unfold popup_config in Hk.
  destruct (is_str (p_reminderType d) "daily_summary").
  { injection Hk as <-. unfold showDailySummary.
    erewrite bind_returned by (apply displayReminder_run; exact Hc). reflexivity. }
  destruct (is_str (p_reminderType d) "overdue").
  { injection Hk as <-. unfold showOverdueAlert.
    erewrite bind_returned by (apply displayReminder_run; exact Hc). reflexivity. }
  destruct (is_str (p_reminderType d) "normal"); [|discriminate].
  injection Hk as <-. unfold showNormalReminder.
  erewrite bind_returned by (apply displayReminder_run; exact Hc). reflexivity.
Qed.

(** A payload of an unknown kind: a warning, then the sound. *)
Lemma handle_unknown rt d m :
  p_type d = VStr "TODO_REMINDER" ->
  popup_config d = None ->
  handleTodoReminder rt (Obj d) m []
  = playSound (or_ (p_priority d) (VStr "normal")) m [ConsoleWarn (p_reminderType d)].
Proof.
  intros Ht Hk. unfold handleTodoReminder.
  cbn [falsy type_of orb]. rewrite Ht.
  replace (is_str (VStr "TODO_REMINDER") "TODO_REMINDER") with true by reflexivity.
  cbn [negb]. unfold popup_config in Hk.
  destruct (is_str (p_reminderType d) "daily_summary"); [discriminate|].
  destruct (is_str (p_reminderType d) "overdue"); [discriminate|].
  destruct (is_str (p_reminderType d) "normal"); [discriminate|].
  reflexivity.
Qed.

(** Anything whose [type] is not [TODO_REMINDER] stops at the guard. *)
Lemma handle_foreign rt (data : Inbound) m log :
  type_of data <> VStr "TODO_REMINDER" ->
  handleTodoReminder rt data m log = Returned tt m log.
Proof.
  intros Ht. unfold handleTodoReminder. apply is_str_false in Ht. rewrite Ht.
  cbn [negb]. now rewrite orb_true_r.
Qed.

Lemma popups_app (l1 l2 : list Effect) : popups (l1 ++ l2)%list = (popups l1 ++ popups l2)%list.
Proof. apply flat_map_app. Qed.

Lemma popups_tones (tones : list Effect) : forallb is_tone tones = true -> popups tones = [].
Proof.
  induction tones as [|e tones IH]; simpl; [reflexivity|].
  intros H. apply andb_prop in H as [He Ht].
  destruct e; try discriminate; simpl; auto.
Qed.

Lemma triggers_tones (tones : list Effect) :
  forallb is_tone tones = true -> filter is_playSound tones = [].
Proof.
  induction tones as [|e tones IH]; simpl; [reflexivity|].
  intros H. apply andb_prop in H as [He Ht].
  destruct e; try discriminate; simpl; auto.
Qed.

Lemma popup_config_unknown (d : Payload) :
  p_reminderType d <> VStr "daily_summary" ->
  p_reminderType d <> VStr "overdue" ->
  p_reminderType d <> VStr "normal" ->
  popup_config d = None.
Proof.
  intros H1 H2 H3. unfold popup_config.
  apply is_str_false in H1, H2, H3. now rewrite H1, H2, H3.
Qed.

(** ** The guard of [handleTodoReminder] *)

(** C8: a call with [undefined], [null] or anything whose [type] is not the
    string [TODO_REMINDER] returns at once: the manager (container,
    [activeReminders], audio context) and the log of effects are what they
    were, so no popup was appended and [playSound] was not called. *)
Theorem foreign_input_is_ignored (rt : Runtime) (data : Inbound) (m : Manager) (log : list Effect) :
  data = Prim VUndefined \/ data = Prim VNull \/ type_of data <> VStr "TODO_REMINDER" ->
  handleTodoReminder rt data m log = Returned tt m log.
Proof.
  intros [-> | [-> | Ht]]; try reflexivity.
  now apply handle_foreign.
Qed.

Lemma foreign_input_is_ignored_witness :
  type_of (Obj Inputs.chat_message) <> VStr "TODO_REMINDER"
  /\ handleTodoReminder Sample.runtime (Obj Inputs.chat_message) Sample.manager []
     = Returned tt Sample.manager [].
Proof.
  assert (H : type_of (Obj Inputs.chat_message) <> VStr "TODO_REMINDER") by discriminate.
  split; [exact H|].
  apply (foreign_input_is_ignored Sample.runtime (Obj Inputs.chat_message) Sample.manager []).
  right; right; exact H.
Defined.

(** ** The priority of the popup *)

(** C1: the popup of an overdue reminder is built with priority [high] and
    the popup of a daily summary with priority [normal], whatever priority
    and whatever counts the payload carries: the one element appended to the
    container has the class and the icon of that priority. *)
Theorem kind_forces_displayed_priority
    (rt : Runtime) (m : Manager) (children : list Element) (d : Payload) :
  container m = Some children ->
  p_type d = VStr "TODO_REMINDER" ->
  (p_reminderType d = VStr "overdue" ->
   exists el rest,
     popups (effects (handleTodoReminder rt (Obj d) m [])) = [el]
     /\ el = createReminderElement rt (overdueConfig d)
     /\ c_priority (overdueConfig d) = VStr "high"
     /\ className el = "todo-reminder-popup priority-high type-overdue"
     /\ innerHTML el = Tpl.header_open ++ "🔴" ++ rest)
  /\ (p_reminderType d = VStr "daily_summary" ->
      exists el rest,
        popups (effects (handleTodoReminder rt (Obj d) m [])) = [el]
        /\ el = createReminderElement rt (dailySummaryConfig d)
        /\ c_priority (dailySummaryConfig d) = VStr "normal"
        /\ className el = "todo-reminder-popup priority-normal type-daily_summary"
        /\ innerHTML el = Tpl.header_open ++ "🔵" ++ rest).
Proof.
  intros Hc Ht.
  assert (Hrun : forall cfg, popup_config d = Some cfg ->
            popups (effects (handleTodoReminder rt (Obj d) m []))
            = [createReminderElement rt cfg]).
  { intros cfg Hk. rewrite (handle_known rt d cfg m children Hc Ht Hk).
    destruct (playSound_run (or_ (p_priority d) (VStr "normal"))
                {| container := Some (children ++ [createReminderElement rt cfg])%list;
                   audioContext := audioContext m;
                   activeReminders :=
                     map_set (or_ (p_todoId d) (VNum (Date_now rt)))
                       {| element := createReminderElement rt cfg; data := d |}
                       (activeReminders m) |}
                [AppendChild (createReminderElement rt cfg);
                 RequestAnimationFrame (is_str (p_priority d) "high");
                 MapSet (or_ (p_todoId d) (VNum (Date_now rt)))]
                (or_normal_defined _)) as (tones & -> & Htones & _).
    cbn [effects]. rewrite popups_app. cbn [popups flat_map app].
    change (flat_map _ tones) with (popups tones).
    now rewrite (popups_tones tones Htones). }
  split; intros Hk.
  - exists (createReminderElement rt (overdueConfig d)).
    eexists.
    split; [apply Hrun; unfold popup_config; rewrite Hk; reflexivity|].
    do 3 (split; [reflexivity|]).
    cbn [innerHTML createReminderElement]. unfold header_html.
    cbn [c_priority overdueConfig].
    change (getPriorityIcon (VStr "high")) with "🔴".
    rewrite !append_assoc. reflexivity.
  - exists (createReminderElement rt (dailySummaryConfig d)).
    eexists.
    split; [apply Hrun; unfold popup_config; rewrite Hk; reflexivity|].
    do 3 (split; [reflexivity|]).
    cbn [innerHTML createReminderElement]. unfold header_html.
    cbn [c_priority dailySummaryConfig].
    change (getPriorityIcon (VStr "normal")) with "🔵".
    rewrite !append_assoc. reflexivity.
Qed.

Lemma kind_forces_displayed_priority_witness :
  container Sample.manager = Some []
  /\ p_type Inputs.overdue_medium = VStr "TODO_REMINDER"
  /\ p_reminderType Inputs.overdue_medium = VStr "overdue"
  /\ p_priority Inputs.overdue_medium = VStr "medium"
  /\ (exists el rest,
        popups (effects (handleTodoReminder Sample.runtime (Obj Inputs.overdue_medium)
                           Sample.manager [])) = [el]
        /\ el = createReminderElement Sample.runtime (overdueConfig Inputs.overdue_medium)
        /\ c_priority (overdueConfig Inputs.overdue_medium) = VStr "high"
        /\ className el = "todo-reminder-popup priority-high type-overdue"
        /\ innerHTML el = Tpl.header_open ++ "🔴" ++ rest)
  /\ p_type Inputs.summary_high = VStr "TODO_REMINDER"
  /\ p_reminderType Inputs.summary_high = VStr "daily_summary"
  /\ p_priority Inputs.summary_high = VStr "high"
  /\ (exists el rest,
        popups (effects (handleTodoReminder Sample.runtime (Obj Inputs.summary_high)
                           Sample.manager [])) = [el]
        /\ el = createReminderElement Sample.runtime (dailySummaryConfig Inputs.summary_high)
        /\ c_priority (dailySummaryConfig Inputs.summary_high) = VStr "normal"
        /\ className el = "todo-reminder-popup priority-normal type-daily_summary"
        /\ innerHTML el = Tpl.header_open ++ "🔵" ++ rest).
Proof.
  do 4 (split; [reflexivity|]).
  split.
  - exact (proj1 (kind_forces_displayed_priority Sample.runtime Sample.manager []
                    Inputs.overdue_medium eq_refl eq_refl) eq_refl).
  - do 3 (split; [reflexivity|]).
    exact (proj2 (kind_forces_displayed_priority Sample.runtime Sample.manager []
                    Inputs.summary_high eq_refl eq_refl) eq_refl).
Defined.

(** ** The sound *)

(** C3: a payload of type [TODO_REMINDER] makes [handleTodoReminder] call
    [playSound] exactly once, with the priority of the payload, however many
    items the payload bundles; the call returns. *)
Theorem one_audio_trigger_per_reminder
    (rt : Runtime) (m : Manager) (children : list Element) (d : Payload) :
  container m = Some children ->
  p_type d = VStr "TODO_REMINDER" ->
  returned (handleTodoReminder rt (Obj d) m []) = true
  /\ audio_triggers (effects (handleTodoReminder rt (Obj d) m [])) = 1%nat
  /\ filter is_playSound (effects (handleTodoReminder rt (Obj d) m []))
     = [PlaySound (or_ (p_priority d) (VStr "normal"))].
Proof.
  intros Hc Ht.
  assert (H : returned (handleTodoReminder rt (Obj d) m []) = true
              /\ filter is_playSound (effects (handleTodoReminder rt (Obj d) m []))
                 = [PlaySound (or_ (p_priority d) (VStr "normal"))]).
  { destruct (popup_config d) as [cfg|] eqn:Hk.
    - rewrite (handle_known rt d cfg m children Hc Ht Hk).
      match goal with |- context [playSound ?p ?m' ?l] =>
        destruct (playSound_run p m' l (or_normal_defined _)) as (tones & -> & Htones & _)
      end.
      split; [reflexivity|]. cbn [effects]. rewrite filter_app.
      cbn [filter is_playSound app]. now rewrite (triggers_tones tones Htones).
    - rewrite (handle_unknown rt d m Ht Hk).
      match goal with |- context [playSound ?p ?m' ?l] =>
        destruct (playSound_run p m' l (or_normal_defined _)) as (tones & -> & Htones & _)
      end.
      split; [reflexivity|]. cbn [effects]. rewrite filter_app.
      cbn [filter is_playSound app]. now rewrite (triggers_tones tones Htones). }
  destruct H as [Hr Hf]. split; [exact Hr|]. split; [|exact Hf].
  unfold audio_triggers. now rewrite Hf.
Qed.

Lemma one_audio_trigger_per_reminder_witness :
  container Sample.manager = Some []
  /\ p_type Inputs.overdue_batch = VStr "TODO_REMINDER"
  /\ option_map (@List.length Item) (p_items Inputs.overdue_batch) = Some 4%nat
  /\ audio_triggers
       (effects (handleTodoReminder Sample.runtime (Obj Inputs.overdue_batch)
                   Sample.manager [])) = 1%nat.
Proof.
  do 3 (split; [reflexivity|]).
  exact (proj1 (proj2 (one_audio_trigger_per_reminder Sample.runtime Sample.manager []
                         Inputs.overdue_batch eq_refl eq_refl))).
Defined.

(** Without its container the manager throws before it reaches the sound;
    such a manager has no audio context either. *)
Lemma uninitialised_manager_throws (rt : Runtime) (d : Payload) (cfg : Config) (audio : bool) :
  p_type d = VStr "TODO_REMINDER" ->
  popup_config d = Some cfg ->
  handleTodoReminder rt (Obj d) (init None audio) [] = TypeError (init None audio) [].
Proof.
  intros Ht Hk. unfold handleTodoReminder.
  cbn [falsy type_of orb]. rewrite Ht.
  replace (is_str (VStr "TODO_REMINDER") "TODO_REMINDER") with true by reflexivity.
  cbn [negb]. unfold popup_config in Hk.
  destruct (is_str (p_reminderType d) "daily_summary"); [reflexivity|].
  destruct (is_str (p_reminderType d) "overdue"); [reflexivity|].
  destruct (is_str (p_reminderType d) "normal"); [reflexivity|discriminate].
Qed.

(** ** Payloads the manager has no case for *)

(** C5, as the manager behaves: an input whose [type] is not
    [TODO_REMINDER] (a string or another primitive among them), or a payload
    whose [reminderType] is none of [daily_summary], [overdue] and [normal],
    is not turned into a reminder.  The call returns without an error, the
    manager is left as it was and no popup is appended.  An input of another
    type leaves no effect at all; a payload of an unknown kind logs a warning
    and plays the sound of its priority. *)
Theorem unrecognised_payload_shows_nothing (rt : Runtime) (data : Inbound) (m : Manager) :
  type_of data <> VStr "TODO_REMINDER"
  \/ (exists d,
        data = Obj d
        /\ p_reminderType d <> VStr "daily_summary"
        /\ p_reminderType d <> VStr "overdue"
        /\ p_reminderType d <> VStr "normal") ->
  returned (handleTodoReminder rt data m []) = true
  /\ manager_after (handleTodoReminder rt data m []) = m
  /\ popups (effects (handleTodoReminder rt data m [])) = []
  /\ (type_of data <> VStr "TODO_REMINDER" ->
      effects (handleTodoReminder rt data m []) = [])
  /\ (forall d,
        data = Obj d ->
        p_type d = VStr "TODO_REMINDER" ->
        exists tones,
          effects (handleTodoReminder rt data m [])
          = ConsoleWarn (p_reminderType d)
            :: PlaySound (or_ (p_priority d) (VStr "normal")) :: tones
          /\ forallb is_tone tones = true).
Proof.
  intros H.
  destruct (value_eq_dec (type_of data) (VStr "TODO_REMINDER")) as [Ht|Ht].
  - destruct H as [H|(d & -> & H1 & H2 & H3)]; [contradiction|].
    cbn [type_of] in Ht.
    rewrite (handle_unknown rt d m Ht (popup_config_unknown d H1 H2 H3)).
    destruct (playSound_run (or_ (p_priority d) (VStr "normal")) m
                [ConsoleWarn (p_reminderType d)] (or_normal_defined _))
      as (tones & -> & Htones & _).
    cbn [returned manager_after effects app popups flat_map].
    change (flat_map _ tones) with (popups tones).
    rewrite (popups_tones tones Htones).
    repeat split; try reflexivity; [contradiction|].
    intros d' Hd' _. injection Hd' as <-. now exists tones.
  - rewrite (handle_foreign rt data m [] Ht).
    repeat split; try reflexivity.
    intros d -> Ht'. cbn [type_of] in Ht. contradiction.
Qed.

Lemma unrecognised_payload_shows_nothing_witness :
  (p_reminderType Inputs.weekly <> VStr "daily_summary"
   /\ p_reminderType Inputs.weekly <> VStr "overdue"
   /\ p_reminderType Inputs.weekly <> VStr "normal")
  /\ popups (effects (handleTodoReminder Sample.runtime (Obj Inputs.weekly)
                        Sample.manager [])) = [].
Proof.
  assert (H : p_reminderType Inputs.weekly <> VStr "daily_summary"
              /\ p_reminderType Inputs.weekly <> VStr "overdue"
              /\ p_reminderType Inputs.weekly <> VStr "normal")
    by (repeat split; discriminate).
  split; [exact H|].
  exact (proj1 (proj2 (proj2 (unrecognised_payload_shows_nothing Sample.runtime
                                (Obj Inputs.weekly) Sample.manager
                                (or_intror (ex_intro _ Inputs.weekly (conj eq_refl H))))))).
Defined.

(** C5, as stated, fails: neither a plain text, nor a message of another
    type, nor a reminder of an unknown kind, each with a text, is wrapped as
    a normal reminder; no popup is appended and nothing is tracked. *)
Lemma unrecognised_payload_counterexample :
  handleTodoReminder Sample.runtime (Prim (VStr "buy milk")) Sample.manager []
  = Returned tt Sample.manager []
  /\ p_content Inputs.chat_message = VStr "hello"
  /\ handleTodoReminder Sample.runtime (Obj Inputs.chat_message) Sample.manager []
     = Returned tt Sample.manager []
  /\ p_content Inputs.weekly = VStr "hello"
  /\ handleTodoReminder Sample.runtime (Obj Inputs.weekly) Sample.manager []
     = Returned tt Sample.manager
         [ConsoleWarn (VStr "weekly"); PlaySound (VStr "normal"); OscillatorStart 400 15 150]
  /\ popups (effects (handleTodoReminder Sample.runtime (Obj Inputs.weekly)
                        Sample.manager [])) = []
  /\ activeReminders (manager_after (handleTodoReminder Sample.runtime (Obj Inputs.weekly)
                                       Sample.manager [])) = [].
Proof. repeat split. Qed.

(** ** The order of the effects *)

(** C6, as the manager behaves: for a reminder of one of the three kinds the
    popup is appended to the container first, then the reminder is put into
    [activeReminders], and [playSound] is called after that; the tones
    follow the call. *)
Theorem popup_then_store_then_sound
    (rt : Runtime) (m : Manager) (children : list Element) (d : Payload) :
  container m = Some children ->
  p_type d = VStr "TODO_REMINDER" ->
  p_reminderType d = VStr "daily_summary"
  \/ p_reminderType d = VStr "overdue"
  \/ p_reminderType d = VStr "normal" ->
  exists el shake key tones,
    effects (handleTodoReminder rt (Obj d) m [])
    = AppendChild el :: RequestAnimationFrame shake :: MapSet key
      :: PlaySound (or_ (p_priority d) (VStr "normal")) :: tones
    /\ forallb is_tone tones = true
    /\ position is_appendChild (effects (handleTodoReminder rt (Obj d) m [])) = Some 0%nat
    /\ position is_mapSet (effects (handleTodoReminder rt (Obj d) m [])) = Some 2%nat
    /\ position is_playSound (effects (handleTodoReminder rt (Obj d) m [])) = Some 3%nat
    /\ activeReminders (manager_after (handleTodoReminder rt (Obj d) m []))
       = map_set key {| element := el; data := d |} (activeReminders m).
Proof.
  intros Hc Ht Hk.
  assert (Hcfg : exists cfg, popup_config d = Some cfg).
  { unfold popup_config.
    destruct Hk as [-> | [-> | ->]]; eexists; reflexivity. }
  destruct Hcfg as [cfg Hcfg].
  rewrite (handle_known rt d cfg m children Hc Ht Hcfg).
  match goal with |- context [playSound ?p ?m' ?l] =>
    destruct (playSound_run p m' l (or_normal_defined _)) as (tones & -> & Htones & _)
  end.
  exists (createReminderElement rt cfg), (is_str (p_priority d) "high"),
         (or_ (p_todoId d) (VNum (Date_now rt))), tones.
  cbn [effects manager_after app activeReminders position is_appendChild is_mapSet
       is_playSound option_map].
  repeat split. exact Htones.
Qed.

Lemma popup_then_store_then_sound_witness :
  container Sample.manager = Some []
  /\ p_type Inputs.with_content = VStr "TODO_REMINDER"
  /\ p_reminderType Inputs.with_content = VStr "normal"
  /\ exists el shake key tones,
       effects (handleTodoReminder Sample.runtime (Obj Inputs.with_content)
                  Sample.manager [])
       = AppendChild el :: RequestAnimationFrame shake :: MapSet key
         :: PlaySound (or_ (p_priority Inputs.with_content) (VStr "normal")) :: tones
       /\ forallb is_tone tones = true
       /\ position is_appendChild
            (effects (handleTodoReminder Sample.runtime (Obj Inputs.with_content)
                        Sample.manager [])) = Some 0%nat
       /\ position is_mapSet
            (effects (handleTodoReminder Sample.runtime (Obj Inputs.with_content)
                        Sample.manager [])) = Some 2%nat
       /\ position is_playSound
            (effects (handleTodoReminder Sample.runtime (Obj Inputs.with_content)
                        Sample.manager [])) = Some 3%nat
       /\ activeReminders
            (manager_after (handleTodoReminder Sample.runtime (Obj Inputs.with_content)
                              Sample.manager []))
          = map_set key {| element := el; data := Inputs.with_content |}
              (activeReminders Sample.manager).
Proof.
  do 3 (split; [reflexivity|]).
  exact (popup_then_store_then_sound Sample.runtime Sample.manager []
           Inputs.with_content eq_refl eq_refl (or_intror (or_intror eq_refl))).
Defined.

(** C6, as stated, fails: the sound is not emitted before the reminder is
    put into [activeReminders] but after it. *)
Lemma audio_before_store_counterexample :
  effects (handleTodoReminder Sample.runtime (Obj Inputs.with_content) Sample.manager [])
  = [AppendChild (createReminderElement Sample.runtime (normalConfig Inputs.with_content));
     RequestAnimationFrame false;
     MapSet (VNum 1700000000000);
     PlaySound (VStr "normal");
     OscillatorStart 400 15 150]
  /\ position is_mapSet
       (effects (handleTodoReminder Sample.runtime (Obj Inputs.with_content)
                   Sample.manager [])) = Some 2%nat
  /\ position is_playSound
       (effects (handleTodoReminder Sample.runtime (Obj Inputs.with_content)
                   Sample.manager [])) = Some 3%nat.
Proof. repeat split. Qed.

(** ** The text of a normal reminder *)

(** C2, as the manager behaves: the content of a normal reminder is
    [content] when that is non-empty and [message] otherwise, whatever the
    title is; when one of the two is non-empty the body of the popup starts
    with the paragraph that holds it, escaped, and is not empty. *)
Theorem normal_content_is_content_or_message (rt : Runtime) (d : Payload) :
  truthy (p_content d) = true \/ truthy (p_message d) = true ->
  c_content (normalConfig d) = (if truthy (p_content d) then p_content d else p_message d)
  /\ truthy (c_content (normalConfig d)) = true
  /\ (forall title,
        c_content (normalConfig (set_texts (p_priority d) title (p_content d) d))
        = c_content (normalConfig d))
  /\ (exists rest,
        body_html rt (normalConfig d)
        = Tpl.content_open ++ escapeHtml (c_content (normalConfig d))
          ++ Tpl.content_close ++ rest)
  /\ body_html rt (normalConfig d) <> "".
Proof.
  intros H.
  assert (Ht : truthy (c_content (normalConfig d)) = true).
  { cbn [c_content normalConfig]. unfold or_.
    destruct (truthy (p_content d)) eqn:Hc; [exact Hc|].
    destruct H as [H|H]; [discriminate|exact H]. }
  assert (Hbody : exists rest,
            body_html rt (normalConfig d)
            = Tpl.content_open ++ escapeHtml (c_content (normalConfig d))
              ++ Tpl.content_close ++ rest).
  { unfold body_html.
    cbn [c_type c_summary c_items c_tags c_time normalConfig String.eqb Ascii.eqb Bool.eqb].
    unfold renderNormalContent. rewrite Ht.
    change ("" ++ Tpl.content_open ++ ?x) with (Tpl.content_open ++ x).
    destruct (truthy (or_ (p_scheduledTime d) (p_timestamp d)));
      destruct (0 <? len match p_tags d with Some tags => tags | None => [] end);
      rewrite ?append_assoc; eexists; reflexivity. }
  split; [reflexivity|]. split; [exact Ht|]. split; [reflexivity|].
  split; [exact Hbody|].
  destruct Hbody as [rest ->]. unfold Tpl.content_open. discriminate.
Qed.

Lemma normal_content_is_content_or_message_witness :
  truthy (p_content Inputs.with_content) = true
  /\ c_content (normalConfig Inputs.with_content) = VStr "before Friday"
  /\ body_html Sample.runtime (normalConfig Inputs.with_content) <> "".
Proof.
  split; [reflexivity|]. split; [reflexivity|].
  exact (proj2 (proj2 (proj2 (proj2
    (normal_content_is_content_or_message Sample.runtime Inputs.with_content
       (or_introl eq_refl)))))).
Defined.

(** C2, as stated, fails: a normal reminder whose only text is its title has
    no content, and the body of its popup is empty. *)
Lemma content_fallback_counterexample :
  p_title Inputs.title_only = VStr "Pay invoice"
  /\ truthy (p_title Inputs.title_only) = true
  /\ c_content (normalConfig Inputs.title_only) = VUndefined
  /\ body_html Sample.runtime (normalConfig Inputs.title_only) = "".
Proof. repeat split. Qed.

(** ** The counts of a daily summary *)

(** C4, as the manager behaves: the overdue count of a daily summary is
    the [overdue] of the payload's [summary] when that is non-zero and [0]
    otherwise, whatever the item list holds; the popup displays it, as an
    overdue stat between the pending count and the item list, exactly when
    it is greater than [0], and displays no overdue stat otherwise. *)
Theorem summary_overdue_is_payload_count (rt : Runtime) (d : Payload) :
  exists s,
    c_summary (dailySummaryConfig d) = Some s
    /\ overdue s = or_ (overdue (summaryData d)) (VNum 0)
    /\ body_html rt (dailySummaryConfig d)
       = summary_counts_html s
         ++ (if gt_zero rt (overdue s) then overdue_stat_html (overdue s) else "")
         ++ Tpl.stats_close ++ summary_list_html (summary_items d)
    /\ (forall n, overdue (summaryData d) = VNum n ->
        gt_zero rt (overdue s) = (0 <? n))
    /\ (truthy (overdue (summaryData d)) = false ->
        overdue s = VNum 0
        /\ body_html rt (dailySummaryConfig d)
           = summary_counts_html s ++ Tpl.stats_close
             ++ summary_list_html (summary_items d))
    /\ (forall items,
        exists s',
          c_summary (dailySummaryConfig (set_items items d)) = Some s'
          /\ overdue s' = overdue s
          /\ body_html rt (dailySummaryConfig (set_items items d))
             = summary_counts_html s'
               ++ (if gt_zero rt (overdue s) then overdue_stat_html (overdue s) else "")
               ++ Tpl.stats_close
               ++ summary_list_html (summary_items (set_items items d))).
Proof.
  assert (Hbody : forall d',
            exists s,
              c_summary (dailySummaryConfig d') = Some s
              /\ overdue s = or_ (overdue (summaryData d')) (VNum 0)
              /\ body_html rt (dailySummaryConfig d')
                 = summary_counts_html s
                   ++ (if gt_zero rt (overdue s) then overdue_stat_html (overdue s) else "")
                   ++ Tpl.stats_close ++ summary_list_html (summary_items d')).
  { intros d'. eexists. split; [reflexivity|]. split; [reflexivity|].
    unfold body_html.
    cbn [c_type c_summary c_items c_content c_time c_tags dailySummaryConfig].
    change (String.eqb "daily_summary" "daily_summary") with true. cbv iota.
    fold (summary_items d').
    unfold renderDailySummary, summary_counts_html, overdue_stat_html, summary_list_html.
    cbv zeta. cbn [total completed pending overdue].
    destruct (gt_zero rt (or_ (overdue (summaryData d')) (VNum 0)));
      destruct (0 <? len (summary_items d'));
      rewrite ?forEach_append; unfold slice; rewrite ?Nat.sub_0_r; cbn [skipn];
      destruct (5 <? len (summary_items d'));
      rewrite ?append_assoc, ?append_nil_r; reflexivity. }
  destruct (Hbody d) as (s & Hs & Hov & Hb).
  exists s. split; [exact Hs|]. split; [exact Hov|]. split; [exact Hb|].
  split; [|split].
  - intros n Hn. rewrite Hov, Hn. unfold or_. cbn [truthy].
    destruct (n =? 0) eqn:E; cbn [negb]; unfold gt_zero; cbn [to_number].
    + apply Z.eqb_eq in E. subst n. reflexivity.
    + reflexivity.
  - intros Hf.
    assert (H0 : overdue s = VNum 0) by (rewrite Hov; unfold or_; now rewrite Hf).
    split; [exact H0|]. rewrite Hb, H0.
    change (gt_zero rt (VNum 0)) with false. reflexivity.
  - intros items. destruct (Hbody (set_items items d)) as (s' & Hs' & Hov' & Hb').
    assert (Heq : overdue s' = overdue s) by (rewrite Hov', Hov; reflexivity).
    exists s'. split; [exact Hs'|]. split; [exact Heq|].
    rewrite Hb', Heq. reflexivity.
Qed.

Lemma summary_overdue_is_payload_count_witness :
  exists s,
    c_summary (dailySummaryConfig Inputs.summary_one_open) = Some s
    /\ overdue s = or_ (overdue (summaryData Inputs.summary_one_open)) (VNum 0)
    /\ body_html Sample.runtime (dailySummaryConfig Inputs.summary_one_open)
       = summary_counts_html s
         ++ (if gt_zero Sample.runtime (overdue s)
             then overdue_stat_html (overdue s) else "")
         ++ Tpl.stats_close ++ summary_list_html (summary_items Inputs.summary_one_open)
    /\ (forall n, overdue (summaryData Inputs.summary_one_open) = VNum n ->
        gt_zero Sample.runtime (overdue s) = (0 <? n))
    /\ (truthy (overdue (summaryData Inputs.summary_one_open)) = false ->
        overdue s = VNum 0
        /\ body_html Sample.runtime (dailySummaryConfig Inputs.summary_one_open)
           = summary_counts_html s ++ Tpl.stats_close
             ++ summary_list_html (summary_items Inputs.summary_one_open))
    /\ (forall items,
        exists s',
          c_summary (dailySummaryConfig (set_items items Inputs.summary_one_open)) = Some s'
          /\ overdue s' = overdue s
          /\ body_html Sample.runtime
               (dailySummaryConfig (set_items items Inputs.summary_one_open))
             = summary_counts_html s'
               ++ (if gt_zero Sample.runtime (overdue s)
                   then overdue_stat_html (overdue s) else "")
               ++ Tpl.stats_close
               ++ summary_list_html
                    (summary_items (set_items items Inputs.summary_one_open))).
Proof.
  exact (summary_overdue_is_payload_count Sample.runtime Inputs.summary_one_open).
Defined.

(** A summary that carries the overdue count 3 and no items shows the stat
    with 3; one that carries -2 or 0 shows no overdue stat. *)
Lemma overdue_stat_examples :
  body_html Sample.runtime (dailySummaryConfig (Counted.with_overdue (VNum 3)))
  = summary_counts_html {| total := VNum 4; completed := VNum 1;
                           pending := VNum 3; overdue := VNum 3 |}
    ++ overdue_stat_html (VNum 3) ++ Tpl.stats_close
  /\ String.index 0 "stat-value overdue"
       (body_html Sample.runtime (dailySummaryConfig (Counted.with_overdue (VNum 3))))
     <> None
  /\ String.index 0 "stat-value overdue"
       (body_html Sample.runtime (dailySummaryConfig (Counted.with_overdue (VNum (-2)))))
     = None
  /\ String.index 0 "stat-value overdue"
       (body_html Sample.runtime (dailySummaryConfig (Counted.with_overdue (VNum 0))))
     = None.
Proof.
  split; [vm_compute; reflexivity|]. split; [vm_compute; discriminate|].
  split; vm_compute; reflexivity.
Qed.

(** C4, as stated, fails: a daily summary with one open item that has no
    deadline displays the overdue count [0], where the derivation from the
    item list gives [1]; the popup shows no overdue stat. *)
Lemma overdue_derivation_counterexample :
  p_items Inputs.summary_one_open = Some [Sample.item "write report"]
  /\ spec_overdue_count Sample.runtime [Sample.item "write report"] = 1
  /\ c_summary (dailySummaryConfig Inputs.summary_one_open)
     = Some {| total := VNum 1; completed := VNum 0; pending := VNum 1; overdue := VNum 0 |}
  /\ String.index 0 "stat-value overdue"
       (body_html Sample.runtime (dailySummaryConfig Inputs.summary_one_open)) = None.
Proof. repeat split. Qed.

(** ** Item lists *)

Lemma slice_from_start {A : Type} (n : nat) (l : list A) : slice 0 n l = firstn n l.
Proof. unfold slice. now rewrite Nat.sub_0_r. Qed.

(** C10: [renderDailySummary] renders the first five items of a list and no
    others, followed by a line that counts the rest exactly when the list
    has more than five; [renderOverdueList] does the same with three. *)
Theorem item_lists_are_truncated (rt : Runtime) (summary : Summary) (items : list Item) :
  (renderDailySummary rt summary (Some items)
   = renderDailySummary rt summary None
     ++ (if 0 <? len items
         then Tpl.summary_list_open
              ++ String.concat "" (map summary_item_html (firstn 5 items))
              ++ (if 5 <? len items
                  then Tpl.summary_more_open ++ Zstr (len items - 5) ++ Tpl.summary_more_close
                  else "")
              ++ Tpl.summary_list_close
         else "")
   /\ (List.length (firstn 5 items) <= 5)%nat)
  /\ (renderOverdueList rt items
      = Tpl.overdue_list_open
        ++ String.concat "" (map (overdue_item_html rt) (firstn 3 items))
        ++ (if 3 <? len items
            then Tpl.overdue_more_open ++ Zstr (len items - 3) ++ Tpl.overdue_more_close
            else "")
        ++ Tpl.overdue_list_close
      /\ (List.length (firstn 3 items) <= 3)%nat).
Proof.
  split; split; try apply firstn_le_length.
  - unfold renderDailySummary. cbv zeta.
    match goal with |- context [fold_left _ _ (?s ++ Tpl.summary_list_open)] =>
      generalize s; intros stats
    end.
    destruct (0 <? len items); [|now rewrite append_nil_r].
    rewrite forEach_append, slice_from_start.
    destruct (5 <? len items); rewrite ?append_assoc; reflexivity.
  - unfold renderOverdueList. cbv zeta.
    rewrite forEach_append, slice_from_start.
    destruct (3 <? len items); rewrite ?append_assoc; reflexivity.
Qed.

(** The body of a daily summary popup is what [renderDailySummary] renders. *)
Lemma summary_popup_body (rt : Runtime) (d : Payload) :
  exists s,
    c_summary (dailySummaryConfig d) = Some s
    /\ body_html rt (dailySummaryConfig d)
       = renderDailySummary rt s
           (Some match p_items d with Some items => items | None => [] end).
Proof. eexists. split; reflexivity. Qed.

(** The body of an overdue popup lists items only for a batch. *)
Lemma overdue_popup_body (rt : Runtime) (d : Payload) :
  body_html rt (overdueConfig d)
  = if 1 <? len (overdueItems d)
    then renderOverdueList rt (overdueItems d)
    else renderNormalContent rt (c_content (overdueConfig d)) VUndefined None.
Proof. reflexivity. Qed.

(** ** Escaping *)

Lemma has_char_app (c : ascii) (a b : string) :
  has_char c (a ++ b) = has_char c a || has_char c b.
Proof.
  induction a as [|x a IH]; simpl; [reflexivity|].
  now rewrite IH, orb_assoc.
Qed.

(** The serialisation of a text contains neither [<] nor [>]. *)
Lemma text_to_html_no_angle (s : string) :
  has_char "<" (text_to_html s) = false /\ has_char ">" (text_to_html s) = false.
Proof.
  assert (H : forall n s, (String.length s <= n)%nat ->
            has_char "<" (text_to_html s) = false
            /\ has_char ">" (text_to_html s) = false).
  { clear s. induction n as [|n IH]; intros s Hlen.
    - destruct s; [split; reflexivity | simpl in Hlen; lia].
    - destruct s as [|c rest]; [split; reflexivity|].
      simpl in Hlen.
      assert (Hrest : (String.length rest <= n)%nat) by lia.
      destruct (IH rest Hrest) as [IHlt IHgt].
      cbn [text_to_html].
      destruct (Ascii.eqb c "&") eqn:Eamp.
      { rewrite !has_char_app, IHlt, IHgt. split; reflexivity. }
      destruct (Ascii.eqb c "<") eqn:Elt.
      { rewrite !has_char_app, IHlt, IHgt. split; reflexivity. }
      destruct (Ascii.eqb c ">") eqn:Egt.
      { rewrite !has_char_app, IHlt, IHgt. split; reflexivity. }
      destruct rest as [|c2 rest2].
      { cbn [has_char]. rewrite Elt, Egt. split; reflexivity. }
      destruct (Ascii.eqb c (ascii_of_nat 194) && Ascii.eqb c2 (ascii_of_nat 160)).
      + simpl in Hrest.
        assert (Hrest2 : (String.length rest2 <= n)%nat) by lia.
        destruct (IH rest2 Hrest2) as [IH2lt IH2gt].
        rewrite !has_char_app, IH2lt, IH2gt. split; reflexivity.
      + cbn [has_char]. rewrite Elt, Egt, IHlt, IHgt. split; reflexivity. }
  apply (H (String.length s) s). lia.
Qed.

(** [escapeHtml] gives the empty string for [null], [undefined], the empty
    string and every other falsy value. *)
Lemma escapeHtml_falsy (v : value) : truthy v = false -> escapeHtml v = "".
Proof. unfold escapeHtml. now intros ->. Qed.

(** What [escapeHtml] returns never opens or closes a tag. *)
Lemma escapeHtml_no_angle (v : value) :
  has_char "<" (escapeHtml v) = false /\ has_char ">" (escapeHtml v) = false.
Proof.
  unfold escapeHtml. destruct (truthy v); cbn [negb].
  - apply text_to_html_no_angle.
  - split; reflexivity.
Qed.

(** The header interpolates the title through [escapeHtml], the body of a
    normal reminder its content and tags, and the action bar the agent
    name. *)
Lemma named_fields_are_escaped (rt : Runtime) (config : Config) (tags : list value) :
  header_html config
  = Tpl.header_open ++ getPriorityIcon (c_priority config) ++ Tpl.header_title
    ++ escapeHtml (c_title config) ++ Tpl.header_close
  /\ (truthy (c_content config) = true ->
      renderNormalContent rt (c_content config) VUndefined None
      = Tpl.content_open ++ escapeHtml (c_content config) ++ Tpl.content_close)
  /\ tags_html tags
     = String.concat "" (map (fun tag => Tpl.tag_open ++ escapeHtml tag ++ Tpl.tag_close) tags)
  /\ (truthy (c_agentName config) = true ->
      exists rest,
        actions_html config
        = Tpl.actions_open ++ Tpl.badge_open ++ escapeHtml (c_agentName config)
          ++ Tpl.badge_close ++ rest).
Proof.
  split; [reflexivity|]. split.
  - intros H. unfold renderNormalContent. rewrite H. reflexivity.
  - split; [reflexivity|]. intros H. unfold actions_html. rewrite H.
    rewrite !append_assoc. eexists. reflexivity.
Qed.

(** C9 at a daily summary whose item carries markup in its [priority], and
    at a normal reminder whose [todoId] does: [renderDailySummary]
    interpolates the priority of an item into the body as it is, and
    [createReminderElement] the [todoId] into the action bar, so the markup
    arrives in the popup unescaped, where [escapeHtml] would have replaced
    its angle brackets. *)
Theorem summary_item_priority_is_not_escaped :
  p_items Inputs.summary_markup_priority
  = Some [{| i_title := VUndefined; i_content := VStr "hi"; i_message := VUndefined;
             i_priority := VStr Inputs.markup; i_scheduledTime := VUndefined;
             i_status := VUndefined; i_deadline := VUndefined |}]
  /\ has_char "<" Inputs.markup = true
  /\ has_char "<" (escapeHtml (VStr Inputs.markup)) = false
  /\ String.index 0 Inputs.markup
       (body_html Sample.runtime (dailySummaryConfig Inputs.summary_markup_priority))
     = Some 774%nat
  /\ String.index 0 Inputs.markup
       (innerHTML (createReminderElement Sample.runtime
                     (dailySummaryConfig Inputs.summary_markup_priority)))
     <> None
  /\ p_todoId Inputs.markup_todo_id = VStr Inputs.markup
  /\ String.index 0 Inputs.markup
       (actions_html (normalConfig Inputs.markup_todo_id))
     <> None.
Proof.
  split; [reflexivity|]. split; [reflexivity|]. split; [reflexivity|].
  split; [vm_compute; reflexivity|].
  split; [vm_compute; discriminate|].
  split; [reflexivity|].
  vm_compute. discriminate.
Qed.

(** ** The history ledger *)

Module LedgerFacts.
Import HistoryLedger.

Lemma insert_recent_perm (e : HistoryEntry) (l : list HistoryEntry) :
  Permutation (insert_recent e l) (e :: l).
Proof.
  induction l as [|x l IH]; cbn [insert_recent]; [reflexivity|].
  destruct (timestamp x <? timestamp e); [reflexivity|].
  rewrite IH. apply perm_swap.
Qed.

Lemma sort_recent_perm (l : list HistoryEntry) : Permutation (sort_recent l) l.
Proof.
  induction l as [|x l IH]; cbn [sort_recent fold_right]; [reflexivity|].
  fold (sort_recent l). rewrite insert_recent_perm. now constructor.
Qed.

Lemma insert_recent_sorted (e : HistoryEntry) (l : list HistoryEntry) :
  StronglySorted newer_or_same l -> StronglySorted newer_or_same (insert_recent e l).
Proof.
  induction l as [|x l IH]; intros Hs; cbn [insert_recent].
  - repeat constructor.
  - inversion Hs as [|? ? Hl Hx]; subst.
    destruct (timestamp x <? timestamp e) eqn:E.
    + apply Z.ltb_lt in E. constructor; [exact Hs|].
      constructor; [unfold newer_or_same; lia|].
      eapply Forall_impl; [|exact Hx]. unfold newer_or_same. intros; lia.
    + apply Z.ltb_ge in E. constructor; [now apply IH|].
      rewrite (insert_recent_perm e l). constructor; [exact E|exact Hx].
Qed.

Lemma sort_recent_sorted (l : list HistoryEntry) : StronglySorted newer_or_same (sort_recent l).
Proof.
  induction l as [|x l IH]; cbn [sort_recent fold_right]; [constructor|].
  now apply insert_recent_sorted.
Qed.

(** In a ledger held most recent first, nothing past a cut is more recent
    than anything before it. *)
Lemma sorted_cut (l : list HistoryEntry) (n : nat) :
  StronglySorted newer_or_same l ->
  Forall (fun old => Forall (fun kept => timestamp old <= timestamp kept) (firstn n l))
         (skipn n l).
Proof.
  intros Hs. revert n. induction Hs as [|x l Hl IH Hx]; intros n.
  - rewrite skipn_nil. constructor.
  - destruct n as [|n]; cbn [skipn firstn].
    + apply Forall_forall. intros; constructor.
    + specialize (IH n). rewrite Forall_forall in IH |- *.
      intros old Hold. constructor.
      * rewrite Forall_forall in Hx. apply Hx.
        rewrite <- (firstn_skipn n l). apply in_or_app. now right.
      * now apply IH.
Qed.

Lemma enforce_cap_length (l : list HistoryEntry) :
  (List.length (enforce_cap l) <= MAX_ENTRIES)%nat.
Proof.
  unfold enforce_cap. destruct (MAX_ENTRIES <? List.length l)%nat eqn:E.
  - apply firstn_le_length.
  - now apply Nat.ltb_ge in E.
Qed.

End LedgerFacts.

(** C7: after any sequence of appends the ledger holds at most 1000 entries;
    and an append that brings the size above 1000 leaves exactly 1000
    entries, which are the most recent by timestamp: what was evicted
    together with what was kept is what the ledger held with the new entry,
    and no evicted entry is more recent than a kept one. *)
Theorem ledger_cap_invariant :
  HistoryLedger.MAX_ENTRIES = 1000%nat
  /\ (forall es,
        (List.length (HistoryLedger.appends es) <= HistoryLedger.MAX_ENTRIES)%nat)
  /\ (forall l e,
        (HistoryLedger.MAX_ENTRIES < List.length (l ++ [e])%list)%nat ->
        List.length (HistoryLedger.append e l) = HistoryLedger.MAX_ENTRIES
        /\ exists evicted,
             Permutation (HistoryLedger.append e l ++ evicted)%list (l ++ [e])%list
             /\ Forall (fun old =>
                          Forall (fun kept => HistoryLedger.timestamp old
                                              <= HistoryLedger.timestamp kept)
                                 (HistoryLedger.append e l))
                       evicted).
Proof.
  split; [reflexivity|]. split.
  - intros es. unfold HistoryLedger.appends.
    assert (H : forall l0,
              (List.length l0 <= HistoryLedger.MAX_ENTRIES)%nat ->
              (List.length (fold_left (fun l e => HistoryLedger.append e l) es l0)
               <= HistoryLedger.MAX_ENTRIES)%nat).
    { induction es as [|e es IH]; intros l0 Hl0; cbn [fold_left]; [exact Hl0|].
      apply IH. apply LedgerFacts.enforce_cap_length. }
    apply H. cbn [List.length]. apply Nat.le_0_l.
  - intros l e Hover. unfold HistoryLedger.append, HistoryLedger.enforce_cap.
    apply Nat.ltb_lt in Hover as Hb. rewrite Hb.
    pose proof (LedgerFacts.sort_recent_perm (l ++ [e])) as Hperm.
    split.
    + apply firstn_length_le. rewrite (Permutation_length Hperm). lia.
    + exists (skipn HistoryLedger.MAX_ENTRIES (HistoryLedger.sort_recent (l ++ [e]))).
      split.
      * rewrite firstn_skipn. exact Hperm.
      * apply LedgerFacts.sorted_cut, LedgerFacts.sort_recent_sorted.
Qed.

Lemma ledger_cap_invariant_witness :
  (HistoryLedger.MAX_ENTRIES
   < List.length (HistoryLedger.entries_upto 1000 ++ [HistoryLedger.entry_at 1001])%list)%nat
  /\ List.length (HistoryLedger.append (HistoryLedger.entry_at 1001)
                    (HistoryLedger.entries_upto 1000))
     = HistoryLedger.MAX_ENTRIES.
Proof.
  assert (H : (HistoryLedger.MAX_ENTRIES
               < List.length (HistoryLedger.entries_upto 1000
                              ++ [HistoryLedger.entry_at 1001])%list)%nat).
  { apply Nat.ltb_lt. vm_compute. reflexivity. }
  split; [exact H|].
  exact (proj1 (proj2 (proj2 ledger_cap_invariant)
                  (HistoryLedger.entries_upto 1000) (HistoryLedger.entry_at 1001) H)).
Defined.

(** 1200 appends in the order of their timestamps leave exactly 1000
    entries, and the first entry appended is no longer among them. *)
Lemma twelve_hundred_appends :
  List.length (HistoryLedger.appends (HistoryLedger.entries_upto 1200)) = 1000%nat
  /\ HistoryLedger.mem_id "1" (HistoryLedger.appends (HistoryLedger.entries_upto 1200)) = false
  /\ HistoryLedger.mem_id "1200" (HistoryLedger.appends (HistoryLedger.entries_upto 1200)) = true.
Proof. vm_compute. repeat split. Qed.

(** * Further properties of the manager *)

(** ** The map of active reminders *)

Lemma strict_eq_true (a b : value) : strict_eq a b = true <-> a = b.
Proof.
  destruct a, b; simpl; split; intros H; try discriminate; try reflexivity.
  - apply Bool.eqb_prop in H. now subst.
  - injection H as ->. apply Bool.eqb_reflx.
  - apply Z.eqb_eq in H. now subst.
  - injection H as ->. apply Z.eqb_refl.
  - apply String.eqb_eq in H. now subst.
  - injection H as ->. apply String.eqb_refl.
Qed.

Lemma strict_eq_false (a b : value) : strict_eq a b = false <-> a <> b.
Proof.
  rewrite <- strict_eq_true. destruct (strict_eq a b); split; congruence.
Qed.

Lemma strict_eq_refl (a : value) : strict_eq a a = true.
Proof. now apply strict_eq_true. Qed.

Lemma map_get_set_same {T : Type} (k : value) (v : T) (m : list (value * T)) :
  map_get k (map_set k v m) = Some v.
Proof.
  induction m as [|[k' v'] m IH]; cbn [map_set map_get].
  - now rewrite strict_eq_refl.
  - destruct (strict_eq k' k) eqn:E; cbn [map_get].
    + now rewrite strict_eq_refl.
    + now rewrite E.
Qed.

Lemma map_get_set_other {T : Type} (k k' : value) (v : T) (m : list (value * T)) :
  k' <> k -> map_get k' (map_set k v m) = map_get k' m.
Proof.
  intros Hne. induction m as [|[k0 v0] m IH]; cbn [map_set map_get].
  - apply not_eq_sym in Hne. apply strict_eq_false in Hne. now rewrite Hne.
  - destruct (strict_eq k0 k) eqn:E; cbn [map_get].
    + apply strict_eq_true in E. subst k0.
      apply not_eq_sym in Hne. apply strict_eq_false in Hne. now rewrite Hne.
    + now rewrite IH.
Qed.

Lemma map_get_delete_same {T : Type} (k : value) (m : list (value * T)) :
  map_get k (map_delete k m) = None.
Proof.
  induction m as [|[k' v'] m IH]; cbn [map_delete map_get]; [reflexivity|].
  destruct (strict_eq k' k) eqn:E; cbn [map_get]; [exact IH|].
  now rewrite E.
Qed.

Lemma map_get_delete_other {T : Type} (k k' : value) (m : list (value * T)) :
  k' <> k -> map_get k' (map_delete k m) = map_get k' m.
Proof.
  intros Hne. induction m as [|[k0 v0] m IH]; cbn [map_delete map_get]; [reflexivity|].
  destruct (strict_eq k0 k) eqn:E; cbn [map_get].
  - apply strict_eq_true in E. subst k0.
    apply not_eq_sym in Hne. apply strict_eq_false in Hne. now rewrite Hne.
  - now rewrite IH.
Qed.

Lemma map_delete_absent {T : Type} (k : value) (m : list (value * T)) :
  map_get k m = None -> map_delete k m = m.
Proof.
  induction m as [|[k' v'] m IH]; cbn [map_delete map_get]; [reflexivity|].
  destruct (strict_eq k' k); [discriminate|]. intros H. now rewrite IH.
Qed.

Lemma map_get_In_keys {T : Type} (k : value) (m : list (value * T)) :
  map_get k m <> None <-> In k (map_keys m).
Proof.
  induction m as [|[k' v'] m IH]; cbn [map_get map_keys map fst In].
  - split; [congruence | contradiction].
  - destruct (strict_eq k' k) eqn:E.
    + apply strict_eq_true in E. split; [now left | discriminate].
    + apply strict_eq_false in E. rewrite IH. unfold map_keys. tauto.
Qed.

Lemma map_set_keys {T : Type} (k : value) (v : T) (m : list (value * T)) :
  map_keys (map_set k v m)
  = if in_dec value_eq_dec k (map_keys m) then map_keys m else (map_keys m ++ [k])%list.
Proof.
  induction m as [|[k' v'] m IH]; cbn [map_set map_keys map fst].
  - destruct (in_dec value_eq_dec k []) as [[]|]; reflexivity.
  - destruct (strict_eq k' k) eqn:E.
    + apply strict_eq_true in E. subst k'. cbn [map fst].
      destruct (in_dec value_eq_dec k (k :: map fst m)) as [|n]; [reflexivity|].
      exfalso. apply n. now left.
    + apply strict_eq_false in E. cbn [map fst]. fold (map_keys (map_set k v m)).
      rewrite IH. fold (map_keys m).
      destruct (in_dec value_eq_dec k (map_keys m)) as [i|n];
        destruct (in_dec value_eq_dec k (k' :: map_keys m)) as [i'|n']; try reflexivity.
      * exfalso. apply n'. now right.
      * destruct i' as [->|i']; [congruence | contradiction].
Qed.

Lemma map_set_NoDup {T : Type} (k : value) (v : T) (m : list (value * T)) :
  NoDup (map_keys m) -> NoDup (map_keys (map_set k v m)).
Proof.
  intros Hnd. rewrite map_set_keys.
  destruct (in_dec value_eq_dec k (map_keys m)) as [i|n]; [exact Hnd|].
  apply NoDup_app; [exact Hnd | repeat constructor; intros [] |].
  intros x Hx [<-|[]]. contradiction.
Qed.

(** ** Every way a call of [handleTodoReminder] can go *)

Lemma handle_known_at rt d cfg m log children :
  container m = Some children ->
  p_type d = VStr "TODO_REMINDER" ->
  popup_config d = Some cfg ->
  handleTodoReminder rt (Obj d) m log
  = playSound (or_ (p_priority d) (VStr "normal"))
      {| container := Some (children ++ [createReminderElement rt cfg])%list;
         audioContext := audioContext m;
         activeReminders :=
           map_set (tracking_key rt d)
                   {| element := createReminderElement rt cfg; data := d |}
                   (activeReminders m) |}
      (log ++ [AppendChild (createReminderElement rt cfg);
               RequestAnimationFrame (is_str (p_priority d) "high");
               MapSet (tracking_key rt d)])%list.
Proof.
  intros Hc Ht Hk. unfold handleTodoReminder, tracking_key.
  cbn [falsy type_of orb]. rewrite Ht.
  replace (is_str (VStr "TODO_REMINDER") "TODO_REMINDER") with true by reflexivity.
  cbn [negb]. unfold popup_config in Hk.
  destruct (is_str (p_reminderType d) "daily_summary").
  { injection Hk as <-. unfold showDailySummary.
    erewrite bind_returned by (apply displayReminder_run; exact Hc). reflexivity. }
  destruct (is_str (p_reminderType d) "overdue").
  { injection Hk as <-. unfold showOverdueAlert.
    erewrite bind_returned by (apply displayReminder_run; exact Hc). reflexivity. }
  destruct (is_str (p_reminderType d) "normal"); [|discriminate].
  injection Hk as <-. unfold showNormalReminder.
  erewrite bind_returned by (apply displayReminder_run; exact Hc). reflexivity.
Qed.

Lemma handle_unknown_at rt d m log :
  p_type d = VStr "TODO_REMINDER" ->
  popup_config d = None ->
  handleTodoReminder rt (Obj d) m log
  = playSound (or_ (p_priority d) (VStr "normal")) m
      (log ++ [ConsoleWarn (p_reminderType d)])%list.
Proof.
  intros Ht Hk. unfold handleTodoReminder.
  cbn [falsy type_of orb]. rewrite Ht.
  replace (is_str (VStr "TODO_REMINDER") "TODO_REMINDER") with true by reflexivity.
  cbn [negb]. unfold popup_config in Hk.
  destruct (is_str (p_reminderType d) "daily_summary"); [discriminate|].
  destruct (is_str (p_reminderType d) "overdue"); [discriminate|].
  destruct (is_str (p_reminderType d) "normal"); [discriminate|].
  reflexivity.
Qed.

Lemma handle_throws_at rt d cfg m log :
  container m = None ->
  p_type d = VStr "TODO_REMINDER" ->
  popup_config d = Some cfg ->
  handleTodoReminder rt (Obj d) m log = TypeError m log.
Proof.
  intros Hc Ht Hk. unfold handleTodoReminder.
  cbn [falsy type_of orb]. rewrite Ht.
  replace (is_str (VStr "TODO_REMINDER") "TODO_REMINDER") with true by reflexivity.
  cbn [negb]. unfold popup_config in Hk.
  unfold showDailySummary, showOverdueAlert, showNormalReminder, bind.
  destruct (is_str (p_reminderType d) "daily_summary");
    [now rewrite displayReminder_throws|].
  destruct (is_str (p_reminderType d) "overdue");
    [now rewrite displayReminder_throws|].
  destruct (is_str (p_reminderType d) "normal"); [|discriminate].
  now rewrite displayReminder_throws.
Qed.

(** The manager a call leaves: the one it found, or that one with a popup
    appended and tracked. *)
Lemma manager_after_handle rt data m log :
  manager_after (handleTodoReminder rt data m log) = m
  \/ exists d cfg children,
       data = Obj d
       /\ popup_config d = Some cfg
       /\ container m = Some children
       /\ manager_after (handleTodoReminder rt data m log)
          = {| container := Some (children ++ [createReminderElement rt cfg])%list;
               audioContext := audioContext m;
               activeReminders :=
                 map_set (tracking_key rt d)
                         {| element := createReminderElement rt cfg; data := d |}
                         (activeReminders m) |}.
Proof.
  destruct (value_eq_dec (type_of data) (VStr "TODO_REMINDER")) as [Ht|Ht].
  2:{ left. now rewrite handle_foreign. }
  destruct data as [v|d]; [discriminate|]. cbn [type_of] in Ht.
  destruct (popup_config d) as [cfg|] eqn:Hk.
  - destruct (container m) as [children|] eqn:Hc.
    + right. exists d, cfg, children. repeat split; try assumption.
      rewrite (handle_known_at rt d cfg m log children Hc Ht Hk).
      match goal with |- context [playSound ?p ?m' ?l] =>
        destruct (playSound_run p m' l (or_normal_defined _)) as (tones & -> & _)
      end.
      reflexivity.
    + left. now rewrite (handle_throws_at rt d cfg m log Hc Ht Hk).
  - left. rewrite (handle_unknown_at rt d m log Ht Hk).
    match goal with |- context [playSound ?p ?m' ?l] =>
      destruct (playSound_run p m' l (or_normal_defined _)) as (tones & -> & _)
    end.
    reflexivity.
Qed.

Lemma known_kind_config (d : Payload) :
  p_reminderType d = VStr "daily_summary"
  \/ p_reminderType d = VStr "overdue"
  \/ p_reminderType d = VStr "normal" ->
  exists cfg, popup_config d = Some cfg.
Proof.
  unfold popup_config. intros [-> | [-> | ->]]; eexists; reflexivity.
Qed.

(** ** Tracking *)

(** X1: a displayed reminder can be looked up: after [handleTodoReminder]
    has shown a payload of a known kind, [activeReminders.get] with its
    [todoId] (or the clock reading that stands in for it) gives the popup
    just appended to the container together with the payload, and every
    other key reads as before. *)
Theorem displayed_reminder_is_tracked
    (rt : Runtime) (m : Manager) (children : list Element) (d : Payload) :
  container m = Some children ->
  p_type d = VStr "TODO_REMINDER" ->
  p_reminderType d = VStr "daily_summary"
  \/ p_reminderType d = VStr "overdue"
  \/ p_reminderType d = VStr "normal" ->
  exists el,
    container (manager_after (handleTodoReminder rt (Obj d) m []))
    = Some (children ++ [el])%list
    /\ map_get (tracking_key rt d)
         (activeReminders (manager_after (handleTodoReminder rt (Obj d) m [])))
       = Some {| element := el; data := d |}
    /\ forall k,
         k <> tracking_key rt d ->
         map_get k (activeReminders (manager_after (handleTodoReminder rt (Obj d) m [])))
         = map_get k (activeReminders m).
Proof.
  intros Hc Ht Hk. destruct (known_kind_config d Hk) as [cfg Hcfg].
  rewrite (handle_known_at rt d cfg m [] children Hc Ht Hcfg).
  match goal with |- context [playSound ?p ?m' ?l] =>
    destruct (playSound_run p m' l (or_normal_defined _)) as (tones & -> & _)
  end.
  cbn [manager_after container activeReminders].
  exists (createReminderElement rt cfg). split; [reflexivity|]. split.
  - apply map_get_set_same.
  - intros k Hne. now apply map_get_set_other.
Qed.

Lemma displayed_reminder_is_tracked_witness :
  container Sample.manager = Some []
  /\ p_type Inputs.with_content = VStr "TODO_REMINDER"
  /\ p_reminderType Inputs.with_content = VStr "normal"
  /\ exists el,
       container (manager_after (handleTodoReminder Sample.runtime
                                   (Obj Inputs.with_content) Sample.manager []))
       = Some ([] ++ [el])%list
       /\ map_get (tracking_key Sample.runtime Inputs.with_content)
            (activeReminders (manager_after (handleTodoReminder Sample.runtime
                                               (Obj Inputs.with_content) Sample.manager [])))
          = Some {| element := el; data := Inputs.with_content |}
       /\ forall k,
            k <> tracking_key Sample.runtime Inputs.with_content ->
            map_get k (activeReminders (manager_after (handleTodoReminder Sample.runtime
                                          (Obj Inputs.with_content) Sample.manager [])))
            = map_get k (activeReminders Sample.manager).
Proof.
  do 3 (split; [reflexivity|]).
  exact (displayed_reminder_is_tracked Sample.runtime Sample.manager []
           Inputs.with_content eq_refl eq_refl (or_intror (or_intror eq_refl))).
Defined.

(** The keys of [activeReminders] stay distinct, whatever
    [handleTodoReminder] is called with and however the call ends. *)
Lemma tracked_keys_stay_distinct
    (rt : Runtime) (data : Inbound) (m : Manager) (log : list Effect) :
  NoDup (map_keys (activeReminders m)) ->
  NoDup (map_keys (activeReminders (manager_after (handleTodoReminder rt data m log)))).
Proof.
  intros Hnd.
  destruct (manager_after_handle rt data m log) as [-> | (d & cfg & children & _ & _ & _ & ->)].
  - exact Hnd.
  - cbn [activeReminders]. now apply map_set_NoDup.
Qed.

(** X2: [handleTodoReminder] never takes a popup out of the container and
    never drops a tracked key: the children it found are still there, in
    their order, followed by at most one new popup, and whatever could be
    looked up before can be looked up after. *)
Theorem handle_never_removes
    (rt : Runtime) (data : Inbound) (m : Manager) (log : list Effect) :
  (forall children,
      container m = Some children ->
      exists added,
        container (manager_after (handleTodoReminder rt data m log))
        = Some (children ++ added)%list
        /\ (List.length added <= 1)%nat)
  /\ (container m = None ->
      container (manager_after (handleTodoReminder rt data m log)) = None)
  /\ (forall k,
        map_get k (activeReminders m) <> None ->
        map_get k (activeReminders (manager_after (handleTodoReminder rt data m log)))
        <> None).
Proof.
  destruct (manager_after_handle rt data m log)
    as [-> | (d & cfg & children & _ & _ & Hc & ->)].
  - split; [|split].
    + intros children Hc. exists []. rewrite app_nil_r. split; [exact Hc | apply Nat.le_0_l].
    + auto.
    + auto.
  - cbn [container activeReminders]. split; [|split].
    + intros children' Hc'. rewrite Hc in Hc'. injection Hc' as <-.
      exists [createReminderElement rt cfg]. split; [reflexivity | apply Nat.le_refl].
    + intros Hn. congruence.
    + intros k Hk.
      destruct (value_eq_dec k (tracking_key rt d)) as [->|Hne].
      * rewrite map_get_set_same. discriminate.
      * now rewrite map_get_set_other.
Qed.

Lemma handle_never_removes_witness :
  container Sample.manager = Some []
  /\ exists added,
       container (manager_after (handleTodoReminder Sample.runtime
                                   (Obj Inputs.with_content) Sample.manager []))
       = Some ([] ++ added)%list
       /\ (List.length added <= 1)%nat.
Proof.
  split; [reflexivity|].
  exact (proj1 (handle_never_removes Sample.runtime (Obj Inputs.with_content)
                  Sample.manager []) [] eq_refl).
Defined.

(** X3: a second reminder with the same [todoId] takes the place of the
    first in [activeReminders], while both popups stay in the container:
    after the two calls the key gives the second popup and payload, and the
    map is no larger than after the first call. *)
Theorem same_todoId_replaces_entry
    (rt1 rt2 : Runtime) (m : Manager) (children : list Element) (d1 d2 : Payload) :
  container m = Some children ->
  p_type d1 = VStr "TODO_REMINDER" ->
  p_type d2 = VStr "TODO_REMINDER" ->
  (p_reminderType d1 = VStr "daily_summary"
   \/ p_reminderType d1 = VStr "overdue"
   \/ p_reminderType d1 = VStr "normal") ->
  (p_reminderType d2 = VStr "daily_summary"
   \/ p_reminderType d2 = VStr "overdue"
   \/ p_reminderType d2 = VStr "normal") ->
  tracking_key rt1 d1 = tracking_key rt2 d2 ->
  exists el1 el2,
    container (manager_after
                 (handleTodoReminder rt2 (Obj d2)
                    (manager_after (handleTodoReminder rt1 (Obj d1) m [])) []))
    = Some (children ++ [el1; el2])%list
    /\ map_get (tracking_key rt1 d1)
         (activeReminders
            (manager_after
               (handleTodoReminder rt2 (Obj d2)
                  (manager_after (handleTodoReminder rt1 (Obj d1) m [])) [])))
       = Some {| element := el2; data := d2 |}
    /\ List.length
         (activeReminders
            (manager_after
               (handleTodoReminder rt2 (Obj d2)
                  (manager_after (handleTodoReminder rt1 (Obj d1) m [])) [])))
       = List.length
           (activeReminders (manager_after (handleTodoReminder rt1 (Obj d1) m []))).
Proof.
  intros Hc Ht1 Ht2 Hk1 Hk2 Hkey.
  destruct (known_kind_config d1 Hk1) as [cfg1 Hcfg1].
  destruct (known_kind_config d2 Hk2) as [cfg2 Hcfg2].
  rewrite (handle_known_at rt1 d1 cfg1 m [] children Hc Ht1 Hcfg1).
  match goal with |- context [playSound ?p ?m' ?l] =>
    destruct (playSound_run p m' l (or_normal_defined _)) as (tones1 & -> & _)
  end.
  cbn [manager_after].
  match goal with |- context [handleTodoReminder rt2 (Obj d2) ?m1 []] =>
    rewrite (handle_known_at rt2 d2 cfg2 m1 []
               (children ++ [createReminderElement rt1 cfg1])%list eq_refl Ht2 Hcfg2)
  end.
  match goal with |- context [playSound ?p ?m' ?l] =>
    destruct (playSound_run p m' l (or_normal_defined _)) as (tones2 & -> & _)
  end.
  cbn [manager_after container activeReminders].
  exists (createReminderElement rt1 cfg1), (createReminderElement rt2 cfg2).
  rewrite <- Hkey. split; [now rewrite <- app_assoc|]. split.
  - apply map_get_set_same.
  - assert (Hlen : forall (T : Type) k (v w : T) l,
              List.length (map_set k w (map_set k v l)) = List.length (map_set k v l)).
    { intros T k v w l. induction l as [|[k' v'] l IH]; cbn [map_set].
      - now rewrite strict_eq_refl.
      - destruct (strict_eq k' k) eqn:E; cbn [map_set].
        + now rewrite strict_eq_refl.
        + rewrite E. cbn [List.length]. now rewrite IH. }
    apply Hlen.
Qed.

Lemma same_todoId_replaces_entry_witness :
  tracking_key Sample.runtime Tracked.first = tracking_key Sample.runtime Tracked.again
  /\ exists el1 el2,
       container (manager_after
                    (handleTodoReminder Sample.runtime (Obj Tracked.again)
                       (manager_after (handleTodoReminder Sample.runtime (Obj Tracked.first)
                                         Sample.manager [])) []))
       = Some ([] ++ [el1; el2])%list
       /\ map_get (tracking_key Sample.runtime Tracked.first)
            (activeReminders
               (manager_after
                  (handleTodoReminder Sample.runtime (Obj Tracked.again)
                     (manager_after (handleTodoReminder Sample.runtime (Obj Tracked.first)
                                       Sample.manager [])) [])))
          = Some {| element := el2; data := Tracked.again |}
       /\ List.length
            (activeReminders
               (manager_after
                  (handleTodoReminder Sample.runtime (Obj Tracked.again)
                     (manager_after (handleTodoReminder Sample.runtime (Obj Tracked.first)
                                       Sample.manager [])) [])))
          = List.length
              (activeReminders
                 (manager_after (handleTodoReminder Sample.runtime (Obj Tracked.first)
                                   Sample.manager []))).
Proof.
  split; [reflexivity|].
  exact (same_todoId_replaces_entry Sample.runtime Sample.runtime Sample.manager []
           Tracked.first Tracked.again eq_refl eq_refl eq_refl
           (or_intror (or_intror eq_refl)) (or_intror (or_introl eq_refl)) eq_refl).
Defined.

(** X4: without its container the manager cannot show anything: a payload
    of a known kind makes [handleTodoReminder] throw before any effect, with
    the manager as it was, so nothing is tracked and no sound is played. *)
Theorem missing_container_throws
    (rt : Runtime) (d : Payload) (m : Manager) (log : list Effect) :
  container m = None ->
  p_type d = VStr "TODO_REMINDER" ->
  p_reminderType d = VStr "daily_summary"
  \/ p_reminderType d = VStr "overdue"
  \/ p_reminderType d = VStr "normal" ->
  handleTodoReminder rt (Obj d) m log = TypeError m log.
Proof.
  intros Hc Ht Hk. destruct (known_kind_config d Hk) as [cfg Hcfg].
  exact (handle_throws_at rt d cfg m log Hc Ht Hcfg).
Qed.

Lemma missing_container_throws_witness :
  container Tracked.broken = None
  /\ handleTodoReminder Sample.runtime (Obj Inputs.with_content) Tracked.broken []
     = TypeError Tracked.broken [].
Proof.
  split; [reflexivity|].
  exact (missing_container_throws Sample.runtime Inputs.with_content Tracked.broken []
           eq_refl eq_refl (or_intror (or_intror eq_refl))).
Defined.

(** X5: the sound and the shake of an overdue reminder follow the priority
    the payload carries, not the priority the popup is displayed with: when
    the payload's priority is not [high], the popup has the class of a high
    priority, but it does not shake and [playSound] is called with the
    payload's priority (or [normal]), never with [high], so the double tone
    is not played. *)
Theorem overdue_sound_follows_payload
    (rt : Runtime) (m : Manager) (children : list Element) (d : Payload) :
  container m = Some children ->
  p_type d = VStr "TODO_REMINDER" ->
  p_reminderType d = VStr "overdue" ->
  p_priority d <> VStr "high" ->
  exists el key tones,
    effects (handleTodoReminder rt (Obj d) m [])
    = AppendChild el :: RequestAnimationFrame false :: MapSet key
      :: PlaySound (or_ (p_priority d) (VStr "normal")) :: tones
    /\ className el = "todo-reminder-popup priority-high type-overdue"
    /\ or_ (p_priority d) (VStr "normal") <> VStr "high"
    /\ forallb is_tone tones = true
    /\ ~ In (OscillatorStart 800 30 300) tones
    /\ ~ In (SetTimeoutOscillator 200 900 30 300) tones.
Proof.
  intros Hc Ht Hk Hp.
  assert (Hcfg : popup_config d = Some (overdueConfig d)).
  { unfold popup_config. now rewrite Hk. }
  assert (Hnh : or_ (p_priority d) (VStr "normal") <> VStr "high").
  { unfold or_. destruct (truthy (p_priority d)); [exact Hp | discriminate]. }
  rewrite (handle_known_at rt d _ m [] children Hc Ht Hcfg).
  apply is_str_false in Hp. rewrite Hp.
  apply is_str_false in Hnh as Hnh'.
  unfold playSound, bind, emit.
  assert (Hd : match or_ (p_priority d) (VStr "normal") with
               | VUndefined => VStr "normal"
               | _ => or_ (p_priority d) (VStr "normal")
               end = or_ (p_priority d) (VStr "normal")).
  { pose proof (or_normal_defined (p_priority d)).
    destruct (or_ (p_priority d) (VStr "normal")); congruence. }
  rewrite Hd. cbn [audioContext]. rewrite Hnh'.
  exists (createReminderElement rt (overdueConfig d)), (tracking_key rt d).
  destruct (audioContext m); cbn [negb].
  - destruct (is_str (or_ (p_priority d) (VStr "normal")) "medium").
    + exists [OscillatorStart 600 20 200]. cbn [effects app].
      repeat split; try assumption; intros [H|[]]; discriminate.
    + exists [OscillatorStart 400 15 150]. cbn [effects app].
      repeat split; try assumption; intros [H|[]]; discriminate.
  - exists []. cbn [effects app]. repeat split; try assumption; intros [].
Qed.

Lemma overdue_sound_follows_payload_witness :
  p_reminderType Inputs.overdue_medium = VStr "overdue"
  /\ p_priority Inputs.overdue_medium <> VStr "high"
  /\ exists el key tones,
       effects (handleTodoReminder Sample.runtime (Obj Inputs.overdue_medium)
                  Sample.manager [])
       = AppendChild el :: RequestAnimationFrame false :: MapSet key
         :: PlaySound (or_ (p_priority Inputs.overdue_medium) (VStr "normal")) :: tones
       /\ className el = "todo-reminder-popup priority-high type-overdue"
       /\ or_ (p_priority Inputs.overdue_medium) (VStr "normal") <> VStr "high"
       /\ forallb is_tone tones = true
       /\ ~ In (OscillatorStart 800 30 300) tones
       /\ ~ In (SetTimeoutOscillator 200 900 30 300) tones.
Proof.
  assert (H : p_priority Inputs.overdue_medium <> VStr "high") by discriminate.
  split; [reflexivity|]. split; [exact H|].
  exact (overdue_sound_follows_payload Sample.runtime Sample.manager []
           Inputs.overdue_medium eq_refl eq_refl eq_refl H).
Defined.

(** ** Closing *)

Lemma tracking_key_string (rt : Runtime) (d : Payload) (s : string) :
  p_todoId d = VStr s -> s <> "" -> tracking_key rt d = VStr s.
Proof.
  intros Hid Hs. unfold tracking_key, or_. rewrite Hid. cbn [truthy].
  apply String.eqb_neq in Hs. now rewrite Hs.
Qed.

Lemma tracking_key_not_string (rt : Runtime) (d : Payload) :
  (forall s, p_todoId d <> VStr s) -> forall s, tracking_key rt d <> VStr s.
Proof.
  intros Hid s. unfold tracking_key, or_.
  destruct (truthy (p_todoId d)); [apply Hid | discriminate].
Qed.

Lemma created_id_string (rt : Runtime) (d : Payload) (cfg : Config) (s : string) :
  popup_config d = Some cfg ->
  p_todoId d = VStr s -> s <> "" ->
  data_todo_id (createReminderElement rt cfg) = s.
Proof.
  intros Hk Hid Hs. unfold popup_config in Hk.
  assert (Hc : c_todoId cfg = VStr s).
  { destruct (is_str (p_reminderType d) "daily_summary"); [injection Hk as <-; exact Hid|].
    destruct (is_str (p_reminderType d) "overdue"); [injection Hk as <-; exact Hid|].
    destruct (is_str (p_reminderType d) "normal"); [injection Hk as <-; exact Hid|].
    discriminate. }
  cbn [data_todo_id createReminderElement]. rewrite Hc. unfold or_. cbn [truthy].
  apply String.eqb_neq in Hs. now rewrite Hs.
Qed.

(** The manager after a payload of a known kind was shown. *)
Lemma manager_after_known rt d cfg m children :
  container m = Some children ->
  p_type d = VStr "TODO_REMINDER" ->
  popup_config d = Some cfg ->
  manager_after (handleTodoReminder rt (Obj d) m [])
  = {| container := Some (children ++ [createReminderElement rt cfg])%list;
       audioContext := audioContext m;
       activeReminders :=
         map_set (tracking_key rt d)
                 {| element := createReminderElement rt cfg; data := d |}
                 (activeReminders m) |}.
Proof.
  intros Hc Ht Hk. rewrite (handle_known_at rt d cfg m [] children Hc Ht Hk).
  match goal with |- context [playSound ?p ?m' ?l] =>
    destruct (playSound_run p m' l (or_normal_defined _)) as (tones & -> & _)
  end.
  reflexivity.
Qed.

(** X6: showing a reminder and closing it by its id is a round trip on the
    map: for a payload whose [todoId] is a non-empty string,
    [closeReminder] with that string finds the popup that was appended,
    takes the show class off it and sets the timer that removes it, and
    afterwards the id is no longer tracked while every other key reads as
    before the reminder was shown.  The popup itself is still in the
    container when [closeReminder] returns. *)
Theorem close_by_id_after_display
    (rt : Runtime) (m : Manager) (children : list Element) (d : Payload) (s : string) :
  container m = Some children ->
  p_type d = VStr "TODO_REMINDER" ->
  p_reminderType d = VStr "daily_summary"
  \/ p_reminderType d = VStr "overdue"
  \/ p_reminderType d = VStr "normal" ->
  p_todoId d = VStr s ->
  s <> "" ->
  exists el,
    snd (closeReminder (ById s) (manager_after (handleTodoReminder rt (Obj d) m [])))
    = [ClassListRemove el "show"; SetTimeoutRemoveChild 300 el]
    /\ container
         (fst (closeReminder (ById s) (manager_after (handleTodoReminder rt (Obj d) m []))))
       = Some (children ++ [el])%list
    /\ map_get (VStr s)
         (activeReminders
            (fst (closeReminder (ById s)
                    (manager_after (handleTodoReminder rt (Obj d) m [])))))
       = None
    /\ forall k,
         k <> VStr s ->
         map_get k
           (activeReminders
              (fst (closeReminder (ById s)
                      (manager_after (handleTodoReminder rt (Obj d) m [])))))
         = map_get k (activeReminders m).
Proof.
  intros Hc Ht Hk Hid Hs. destruct (known_kind_config d Hk) as [cfg Hcfg].
  rewrite (manager_after_known rt d cfg m children Hc Ht Hcfg).
  rewrite (tracking_key_string rt d s Hid Hs).
  exists (createReminderElement rt cfg).
  unfold closeReminder, close_target. cbn [activeReminders].
  rewrite map_get_set_same. cbn [fst snd element with_reminders container activeReminders].
  split; [reflexivity|]. split; [reflexivity|]. split.
  - apply map_get_delete_same.
  - intros k Hne. rewrite map_get_delete_other by exact Hne.
    now apply map_get_set_other.
Qed.

Lemma close_by_id_after_display_witness :
  p_todoId Tracked.first = VStr "t1"
  /\ exists el,
       snd (closeReminder (ById "t1") Tracked.shown)
       = [ClassListRemove el "show"; SetTimeoutRemoveChild 300 el]
       /\ container (fst (closeReminder (ById "t1") Tracked.shown))
          = Some ([] ++ [el])%list
       /\ map_get (VStr "t1")
            (activeReminders (fst (closeReminder (ById "t1") Tracked.shown)))
          = None
       /\ forall k,
            k <> VStr "t1" ->
            map_get k (activeReminders (fst (closeReminder (ById "t1") Tracked.shown)))
            = map_get k (activeReminders Sample.manager).
Proof.
  split; [reflexivity|].
  assert (Hs : "t1" <> "") by discriminate.
  exact (close_by_id_after_display Sample.runtime Sample.manager [] Tracked.first "t1"
           eq_refl eq_refl (or_intror (or_intror eq_refl)) eq_refl Hs).
Defined.

(** X7: closing an id that is not tracked does nothing: [closeReminder]
    leaves the manager as it is and has no effect, and [dismissReminder]
    and [viewTodo] only write their log line (and [viewTodo] still opens
    the detail window when the host offers one). *)
Theorem close_unknown_id_is_noop (page : Page) (m : Manager) (id : string) :
  map_get (VStr id) (activeReminders m) = None ->
  closeReminder (ById id) m = (m, [])
  /\ dismissReminder (ById id) m = (m, [ConsoleLog "稍后提醒:" (ById id)])
  /\ viewTodo page (ById id) m
     = (m, ConsoleLog "查看待办:" (ById id)
           :: (if openTodoDetail page then [OpenTodoDetail (ById id)] else [])).
Proof.
  intros Hn.
  assert (H : closeReminder (ById id) m = (m, [])).
  { unfold closeReminder, close_target. now rewrite Hn. }
  split; [exact H|].
  unfold dismissReminder, viewTodo. rewrite H. split; reflexivity.
Qed.

Lemma close_unknown_id_is_noop_witness :
  map_get (VStr "t2") (activeReminders Tracked.shown) = None
  /\ closeReminder (ById "t2") Tracked.shown = (Tracked.shown, []).
Proof.
  split; [reflexivity|].
  exact (proj1 (close_unknown_id_is_noop full_page Tracked.shown "t2" eq_refl)).
Defined.

(** X8: the buttons of a popup cannot close a reminder whose [todoId] is
    not a string.  The popup's buttons pass the [todoId] printed into the
    markup, a string, while such a reminder is tracked under a key that is
    not a string (the number it carries, or the clock reading when it has
    none); unless another reminder is tracked under that very string, the
    call finds nothing, the popup stays and the reminder stays tracked. *)
Theorem buttons_miss_non_string_ids
    (rt : Runtime) (m : Manager) (children : list Element) (d : Payload) :
  container m = Some children ->
  p_type d = VStr "TODO_REMINDER" ->
  p_reminderType d = VStr "daily_summary"
  \/ p_reminderType d = VStr "overdue"
  \/ p_reminderType d = VStr "normal" ->
  (forall s, p_todoId d <> VStr s) ->
  map_get (VStr (to_string (p_todoId d))) (activeReminders m) = None ->
  closeReminder (ById (to_string (p_todoId d)))
    (manager_after (handleTodoReminder rt (Obj d) m []))
  = (manager_after (handleTodoReminder rt (Obj d) m []), [])
  /\ map_get (tracking_key rt d)
       (activeReminders (manager_after (handleTodoReminder rt (Obj d) m [])))
     <> None.
Proof.
  intros Hc Ht Hk Hid Hfree. destruct (known_kind_config d Hk) as [cfg Hcfg].
  rewrite (manager_after_known rt d cfg m children Hc Ht Hcfg).
  split.
  - unfold closeReminder, close_target. cbn [activeReminders].
    rewrite map_get_set_other
      by (apply not_eq_sym; apply tracking_key_not_string; exact Hid).
    now rewrite Hfree.
  - cbn [activeReminders]. rewrite map_get_set_same. discriminate.
Qed.

Lemma buttons_miss_non_string_ids_witness :
  p_todoId Tracked.numbered = VNum 5
  /\ closeReminder (ById "5") Tracked.shown_numbered = (Tracked.shown_numbered, [])
  /\ map_get (VNum 5) (activeReminders Tracked.shown_numbered) <> None.
Proof.
  split; [reflexivity|].
  assert (Hid : forall s, p_todoId Tracked.numbered <> VStr s) by (intros s; discriminate).
  exact (buttons_miss_non_string_ids Sample.runtime Sample.manager [] Tracked.numbered
           eq_refl eq_refl (or_intror (or_intror eq_refl)) Hid eq_refl).
Defined.

(** X9: for a reminder tracked under the id its popup carries, the close
    button (which hands [closeReminder] an element of the popup) does what
    closing by that id does. *)
Theorem close_button_as_close_by_id (m : Manager) (s : string) (reminder : Tracked) :
  map_get (VStr s) (activeReminders m) = Some reminder ->
  data_todo_id (element reminder) = s ->
  s <> "" ->
  closeReminder (ByElement (Some (element reminder))) m = closeReminder (ById s) m
  /\ closeReminder (ByEvent (Some (element reminder))) m = closeReminder (ById s) m.
Proof.
  intros Hget Hattr Hs. unfold closeReminder, close_target.
  rewrite Hget, Hattr. apply String.eqb_neq in Hs. rewrite Hs. cbn [negb].
  split; reflexivity.
Qed.

Lemma close_button_as_close_by_id_witness :
  map_get (VStr "t1") (activeReminders Tracked.shown)
  = Some {| element := createReminderElement Sample.runtime (normalConfig Tracked.first);
            data := Tracked.first |}
  /\ closeReminder
       (ByElement (Some (createReminderElement Sample.runtime (normalConfig Tracked.first))))
       Tracked.shown
     = closeReminder (ById "t1") Tracked.shown.
Proof.
  assert (Hs : "t1" <> "") by discriminate.
  split; [reflexivity|].
  exact (proj1 (close_button_as_close_by_id Tracked.shown "t1"
                  {| element := createReminderElement Sample.runtime
                                  (normalConfig Tracked.first);
                     data := Tracked.first |}
                  eq_refl eq_refl Hs)).
Defined.

(** X10: the close button of a reminder that is tracked under a key that
    is not a string closes the popup but leaves the reminder in
    [activeReminders]: the [delete] is done with the string of the
    [data-todo-id] attribute, which is never such a key. *)
Theorem close_button_leaves_entry
    (m : Manager) (k : value) (reminder : Tracked) (popup : Element) :
  (forall s, k <> VStr s) ->
  map_get k (activeReminders m) = Some reminder ->
  snd (closeReminder (ByElement (Some popup)) m)
  = [ClassListRemove popup "show"; SetTimeoutRemoveChild 300 popup]
  /\ map_get k (activeReminders (fst (closeReminder (ByElement (Some popup)) m)))
     = Some reminder.
Proof.
  intros Hk Hget. unfold closeReminder, close_target.
  destruct (negb (String.eqb (data_todo_id popup) "")); cbn [fst snd].
  - split; [reflexivity|]. cbn [with_reminders activeReminders].
    rewrite map_get_delete_other by apply Hk. exact Hget.
  - split; [reflexivity | exact Hget].
Qed.

Lemma close_button_leaves_entry_witness :
  map_get (VNum 5) (activeReminders Tracked.shown_numbered)
  = Some {| element := createReminderElement Sample.runtime (normalConfig Tracked.numbered);
            data := Tracked.numbered |}
  /\ map_get (VNum 5)
       (activeReminders
          (fst (closeReminder
                  (ByElement (Some (createReminderElement Sample.runtime
                                      (normalConfig Tracked.numbered))))
                  Tracked.shown_numbered)))
     = Some {| element := createReminderElement Sample.runtime (normalConfig Tracked.numbered);
               data := Tracked.numbered |}.
Proof.
  assert (Hk : forall s, VNum 5 <> VStr s) by (intros s; discriminate).
  split; [reflexivity|].
  exact (proj2 (close_button_leaves_entry Tracked.shown_numbered (VNum 5)
                  {| element := createReminderElement Sample.runtime
                                  (normalConfig Tracked.numbered);
                     data := Tracked.numbered |}
                  (createReminderElement Sample.runtime (normalConfig Tracked.numbered))
                  Hk eq_refl)).
Defined.

(** X11: [completeTodo] reports success whether or not it closed anything:
    on a page with a toast container its effects end with the log line and
    the success toast for every argument, and for an id that is not
    tracked these are all its effects and the manager is unchanged. *)
Theorem completeTodo_always_toasts (page : Page) (arg : CloseArg) (m : Manager) :
  toastContainer page = true ->
  fst (completeTodo page arg m) = fst (closeReminder arg m)
  /\ snd (completeTodo page arg m)
     = (snd (closeReminder arg m)
        ++ [ConsoleLog "完成待办:" arg;
            ToastAppend "toast toast-success" "待办已标记为完成";
            SetTimeoutToastShow 10;
            SetTimeoutToastRemove 3000 300])%list
  /\ (forall id,
        arg = ById id ->
        map_get (VStr id) (activeReminders m) = None ->
        completeTodo page arg m
        = (m, [ConsoleLog "完成待办:" arg;
               ToastAppend "toast toast-success" "待办已标记为完成";
               SetTimeoutToastShow 10;
               SetTimeoutToastRemove 3000 300])).
Proof.
  intros Hp.
  assert (Ht : showToast page "待办已标记为完成" (Some "success")
               = [ToastAppend "toast toast-success" "待办已标记为完成";
                  SetTimeoutToastShow 10; SetTimeoutToastRemove 3000 300]).
  { unfold showToast. rewrite Hp. reflexivity. }
  unfold completeTodo. rewrite Ht.
  split; [|split].
  - destruct (closeReminder arg m); reflexivity.
  - destruct (closeReminder arg m); reflexivity.
  - intros id -> Hn. unfold closeReminder, close_target. rewrite Hn. reflexivity.
Qed.

Lemma completeTodo_always_toasts_witness :
  toastContainer full_page = true
  /\ map_get (VStr "t2") (activeReminders Tracked.shown) = None
  /\ completeTodo full_page (ById "t2") Tracked.shown
     = (Tracked.shown,
        [ConsoleLog "完成待办:" (ById "t2");
         ToastAppend "toast toast-success" "待办已标记为完成";
         SetTimeoutToastShow 10;
         SetTimeoutToastRemove 3000 300]).
Proof.
  split; [reflexivity|]. split; [reflexivity|].
  exact (proj2 (proj2 (completeTodo_always_toasts full_page (ById "t2") Tracked.shown
                         eq_refl)) "t2" eq_refl eq_refl).
Defined.

(** What [closeReminder] leaves of the manager. *)
Lemma closeReminder_frame (arg : CloseArg) (m : Manager) :
  container (fst (closeReminder arg m)) = container m
  /\ audioContext (fst (closeReminder arg m)) = audioContext m
  /\ forall k reminder,
       map_get k (activeReminders (fst (closeReminder arg m))) = Some reminder ->
       map_get k (activeReminders m) = Some reminder.
Proof.
  assert (Hdel : forall key k (reminder : Tracked) l,
            map_get k (map_delete key l) = Some reminder -> map_get k l = Some reminder).
  { intros key k reminder l H.
    destruct (value_eq_dec k key) as [->|Hne].
    - rewrite map_get_delete_same in H. discriminate.
    - now rewrite map_get_delete_other in H. }
  unfold closeReminder, close_target.
  destruct arg as [id|[popup|]|[popup|]|];
    try destruct (map_get (VStr id) (activeReminders m));
    try destruct (negb (String.eqb (data_todo_id popup) ""));
    cbn [fst with_reminders container audioContext activeReminders];
    (split; [reflexivity|]); (split; [reflexivity|]);
    intros k reminder H; try exact H; eapply Hdel; exact H.
Qed.

(** X12: the closing functions only ever take reminders out of
    [activeReminders]: [closeReminder] leaves the container and the audio
    context as they are (the popup leaves its parent in a timer, later),
    and a key that can be looked up afterwards could be looked up before,
    with the same entry. *)
Theorem closing_only_removes (arg : CloseArg) (m : Manager) :
  container (fst (closeReminder arg m)) = container m
  /\ audioContext (fst (closeReminder arg m)) = audioContext m
  /\ forall k reminder,
       map_get k (activeReminders (fst (closeReminder arg m))) = Some reminder ->
       map_get k (activeReminders m) = Some reminder.
Proof. exact (closeReminder_frame arg m). Qed.

Lemma closing_only_removes_witness :
  container (fst (closeReminder (ById "t1") Tracked.shown)) = container Tracked.shown
  /\ audioContext (fst (closeReminder (ById "t1") Tracked.shown))
     = audioContext Tracked.shown
  /\ forall k reminder,
       map_get k (activeReminders (fst (closeReminder (ById "t1") Tracked.shown)))
       = Some reminder ->
       map_get k (activeReminders Tracked.shown) = Some reminder.
Proof. exact (closing_only_removes (ById "t1") Tracked.shown). Defined.

(** ** Clearing *)

Lemma map_get_In {T : Type} (k : value) (v : T) (m : list (value * T)) :
  NoDup (map_keys m) -> In (k, v) m -> map_get k m = Some v.
Proof.
  induction m as [|[k' v'] m IH]; cbn [map_keys map fst map_get In]; [contradiction|].
  intros Hnd [Heq|Hin].
  - injection Heq as -> ->. now rewrite strict_eq_refl.
  - inversion Hnd as [|? ? Hnotin Hnd']; subst.
    destruct (strict_eq k' k) eqn:E.
    + apply strict_eq_true in E. subst k'. exfalso. apply Hnotin.
      change k with (fst (k, v)). now apply in_map.
    + now apply IH.
Qed.

Lemma map_get_Some_In {T : Type} (k : value) (v : T) (m : list (value * T)) :
  map_get k m = Some v -> In v (map snd m).
Proof.
  induction m as [|[k' v'] m IH]; cbn [map_get map snd In]; [discriminate|].
  destruct (strict_eq k' k).
  - intros H. injection H as ->. now left.
  - intros H. right. now apply IH.
Qed.

Lemma map_set_Forall {T : Type} (P : value * T -> Prop) (k : value) (v : T)
      (m : list (value * T)) :
  Forall P m -> P (k, v) -> Forall P (map_set k v m).
Proof.
  intros Hm Hkv. induction Hm as [|[k' v'] m Hx Hm IH]; cbn [map_set].
  - now constructor.
  - destruct (strict_eq k' k); constructor; assumption.
Qed.

(** X13: tracking by id is kept: when every tracked reminder sits under
    the non-empty string its popup carries in [data-todo-id], and no key
    occurs twice, this is still so after [handleTodoReminder] has handled
    any input whose [todoId], if it is a payload, is a non-empty string. *)
Theorem tracking_by_id_is_kept
    (rt : Runtime) (data : Inbound) (m : Manager) (log : list Effect) :
  (forall d, data = Obj d -> exists s, p_todoId d = VStr s /\ s <> "") ->
  tracked_by_id m ->
  tracked_by_id (manager_after (handleTodoReminder rt data m log)).
Proof.
  intros Hid [Hall Hnd].
  destruct (manager_after_handle rt data m log)
    as [-> | (d & cfg & children & -> & Hcfg & _ & ->)].
  - now split.
  - destruct (Hid d eq_refl) as (s & Hs & Hne).
    unfold tracked_by_id. cbn [activeReminders]. split.
    + apply map_set_Forall; [exact Hall|].
      exists s. cbn [fst snd element].
      split; [now apply tracking_key_string|]. split; [exact Hne|].
      now apply (created_id_string rt d cfg s).
    + now apply map_set_NoDup.
Qed.

Lemma tracking_by_id_is_kept_witness :
  tracked_by_id Sample.manager
  /\ tracked_by_id
       (manager_after (handleTodoReminder Sample.runtime (Obj Tracked.first)
                         Sample.manager [])).
Proof.
  assert (H0 : tracked_by_id Sample.manager) by (split; constructor).
  assert (Hid : forall d, Obj Tracked.first = Obj d ->
                  exists s, p_todoId d = VStr s /\ s <> "").
  { intros d Hd. injection Hd as <-. exists "t1". split; [reflexivity | discriminate]. }
  split; [exact H0|].
  exact (tracking_by_id_is_kept Sample.runtime (Obj Tracked.first) Sample.manager []
           Hid H0).
Defined.

Lemma forEach_close_by_id (entries : list (value * Tracked)) (m : Manager) :
  NoDup (map_keys entries) ->
  Forall (fun entry =>
            (exists s, fst entry = VStr s /\ s <> ""
                       /\ data_todo_id (element (snd entry)) = s)
            /\ map_get (fst entry) (activeReminders m) = Some (snd entry))
         entries ->
  exists m',
    forEach_close entries m
    = (m', flat_map (fun entry => closing (element (snd entry))) entries)
    /\ container m' = container m
    /\ audioContext m' = audioContext m.
Proof.
  revert m. induction entries as [|[k r] rest IH]; intros m Hnd Hall.
  - exists m. repeat split.
  - cbn [map_keys map fst] in Hnd. apply NoDup_cons_iff in Hnd as [Hnotin Hnd'].
    apply Forall_cons_iff in Hall as [[(s & Hk & Hs & Hattr) Hget] Hrest].
    cbn [fst snd] in Hk, Hattr, Hget. subst k.
    cbn [forEach_close]. rewrite Hget.
    unfold closeReminder at 1. unfold close_target. rewrite Hattr.
    apply String.eqb_neq in Hs as Hs'. rewrite Hs'. cbn [negb].
    destruct (IH (with_reminders (map_delete (VStr s) (activeReminders m)) m) Hnd')
      as (m' & Heq & Hc & Ha).
    { rewrite Forall_forall in Hrest |- *. intros [k' r'] Hin.
      destruct (Hrest _ Hin) as [Hshape Hget'].
      split; [exact Hshape|]. cbn [fst snd with_reminders activeReminders] in *.
      rewrite map_get_delete_other; [exact Hget'|].
      intros ->. apply Hnotin. change (VStr s) with (fst (VStr s, r')).
      now apply in_map. }
    rewrite Heq. exists m'. split; [reflexivity|].
    split; [exact Hc | exact Ha].
Qed.

(** X14: when the reminders are tracked by id, [clearAll] closes every
    tracked popup, once each and in the order the reminders were added (the
    show class goes and the removal timer is set), and leaves no reminder
    tracked; the container and the audio context are as before. *)
Theorem clearAll_closes_every_popup (m : Manager) :
  tracked_by_id m ->
  clearAll m
  = (with_reminders [] m,
     flat_map (fun entry =>
                 [ClassListRemove (element (snd entry)) "show";
                  SetTimeoutRemoveChild 300 (element (snd entry))])
              (activeReminders m)).
Proof.
  intros [Hall Hnd]. unfold clearAll.
  destruct (forEach_close_by_id (activeReminders m) m Hnd) as (m' & -> & Hc & Ha).
  { rewrite Forall_forall in Hall |- *. intros [k r] Hin.
    split; [exact (Hall _ Hin)|]. cbn [fst snd]. now apply map_get_In. }
  unfold with_reminders. now rewrite Hc, Ha.
Qed.

Lemma clearAll_closes_every_popup_witness :
  tracked_by_id Tracked.shown
  /\ clearAll Tracked.shown
     = (with_reminders [] Tracked.shown,
        flat_map (fun entry =>
                    [ClassListRemove (element (snd entry)) "show";
                     SetTimeoutRemoveChild 300 (element (snd entry))])
                 (activeReminders Tracked.shown)).
Proof.
  assert (H : tracked_by_id Tracked.shown).
  { split.
    - repeat constructor. exists "t1". repeat split. discriminate.
    - repeat constructor. intros []. }
  split; [exact H|].
  exact (clearAll_closes_every_popup Tracked.shown H).
Defined.

Lemma map_delete_incl {T : Type} (k : value) (m : list (value * T)) :
  incl (map_delete k m) m.
Proof.
  induction m as [|[k' v'] m IH]; cbn [map_delete]; [apply incl_refl|].
  destruct (strict_eq k' k).
  - now apply incl_tl.
  - apply incl_cons; [now left | now apply incl_tl].
Qed.

Lemma closeReminder_incl (arg : CloseArg) (m : Manager) :
  incl (activeReminders (fst (closeReminder arg m))) (activeReminders m).
Proof.
  unfold closeReminder, close_target.
  destruct arg as [id|[popup|]|[popup|]|];
    try destruct (map_get (VStr id) (activeReminders m));
    try destruct (negb (String.eqb (data_todo_id popup) ""));
    cbn [fst with_reminders activeReminders];
    try apply incl_refl; apply map_delete_incl.
Qed.

Lemma forEach_close_tracked (entries : list (value * Tracked)) (m : Manager) :
  container (fst (forEach_close entries m)) = container m
  /\ audioContext (fst (forEach_close entries m)) = audioContext m
  /\ Forall (fun e =>
               exists reminder,
                 In reminder (map snd (activeReminders m))
                 /\ In e (closing (element reminder)))
            (snd (forEach_close entries m)).
Proof.
  revert m. induction entries as [|[k r] rest IH]; intros m.
  - cbn [forEach_close fst snd]. repeat split; auto.
  - cbn [forEach_close].
    destruct (map_get k (activeReminders m)) as [live|] eqn:Hget; [|apply IH].
    pose proof (closeReminder_frame (ByElement (Some (element live))) m) as (Hc1 & Ha1 & _).
    pose proof (closeReminder_incl (ByElement (Some (element live))) m) as Hi1.
    assert (Hlog1 : snd (closeReminder (ByElement (Some (element live))) m)
                    = closing (element live)).
    { unfold closeReminder, close_target.
      destruct (negb (String.eqb (data_todo_id (element live)) "")); reflexivity. }
    destruct (closeReminder (ByElement (Some (element live))) m) as [m1 log1].
    cbn [fst snd] in Hc1, Ha1, Hi1, Hlog1.
    destruct (IH m1) as (Hc2 & Ha2 & Hlog2).
    destruct (forEach_close rest m1) as [m2 log2].
    cbn [fst snd] in *. split; [congruence|]. split; [congruence|].
    apply Forall_app. split.
    + subst log1. rewrite Forall_forall. intros e He.
      exists live. split; [|exact He]. now apply (map_get_Some_In k).
    + eapply Forall_impl; [|exact Hlog2].
      intros e (r' & Hin & He). exists r'. split; [|exact He].
      apply in_map_iff in Hin as (entry & Heq & Hin).
      apply in_map_iff. exists entry. split; [exact Heq|]. now apply Hi1.
Qed.

(** X15: [clearAll] leaves no reminder tracked and the container and audio
    context as they were; every effect it has is the closing of a popup that
    was tracked; and a second [clearAll] right after has nothing to do. *)
Theorem clearAll_only_closes_tracked (m : Manager) :
  fst (clearAll m) = with_reminders [] m
  /\ Forall (fun e =>
               exists reminder,
                 In reminder (map snd (activeReminders m))
                 /\ (e = ClassListRemove (element reminder) "show"
                     \/ e = SetTimeoutRemoveChild 300 (element reminder)))
            (snd (clearAll m))
  /\ clearAll (fst (clearAll m)) = (fst (clearAll m), []).
Proof.
  unfold clearAll.
  destruct (forEach_close_tracked (activeReminders m) m) as (Hc & Ha & Hlog).
  destruct (forEach_close (activeReminders m) m) as [m' log].
  cbn [fst snd] in *.
  assert (Hm : with_reminders [] m' = with_reminders [] m).
  { unfold with_reminders. now rewrite Hc, Ha. }
  split; [exact Hm|]. split.
  - eapply Forall_impl; [|exact Hlog].
    intros e (r & Hin & He). exists r. split; [exact Hin|].
    destruct He as [<-|[<-|[]]]; [now left | now right].
  - reflexivity.
Qed.

(** ** Escaped text *)

Lemma length_append (a b : string) :
  String.length (a ++ b) = (String.length a + String.length b)%nat.
Proof.
  induction a as [|c a IH]; cbn [append String.length]; [reflexivity | now rewrite IH].
Qed.

Lemma text_to_html_length (s : string) :
  (String.length s <= String.length (text_to_html s))%nat
  /\ (has_special s = true -> (String.length s < String.length (text_to_html s))%nat)
  /\ (has_special s = false -> text_to_html s = s).
Proof.
  assert (H : forall n s, (String.length s <= n)%nat ->
            (String.length s <= String.length (text_to_html s))%nat
            /\ (has_special s = true ->
                (String.length s < String.length (text_to_html s))%nat)
            /\ (has_special s = false -> text_to_html s = s)).
  { clear s. induction n as [|n IH]; intros s Hlen.
    - destruct s; [|simpl in Hlen; lia].
      repeat split; auto. discriminate.
    - destruct s as [|c rest]; [repeat split; auto; discriminate|].
      simpl in Hlen.
      assert (Hrest : (String.length rest <= n)%nat) by lia.
      destruct (IH rest Hrest) as (IHle & IHlt & IHid).
      unfold has_special in *. cbn [text_to_html has_char].
      destruct (Ascii.eqb c "&") eqn:Eamp.
      { rewrite length_append. cbn [String.length orb].
        repeat split; try lia; discriminate. }
      destruct (Ascii.eqb c "<") eqn:Elt.
      { rewrite length_append. cbn [String.length orb]. rewrite orb_true_r.
        cbn [orb]. repeat split; try lia; discriminate. }
      destruct (Ascii.eqb c ">") eqn:Egt.
      { rewrite length_append. cbn [String.length orb]. rewrite !orb_true_r.
        cbn [orb]. repeat split; try lia; discriminate. }
      cbn [orb].
      destruct rest as [|c2 rest2].
      { cbn [has_char has_nbsp String.length orb]. repeat split; auto. discriminate. }
      cbn [has_nbsp].
      destruct (Ascii.eqb c (ascii_of_nat 194) && Ascii.eqb c2 (ascii_of_nat 160)) eqn:Ens.
      + simpl in Hrest.
        assert (Hrest2 : (String.length rest2 <= n)%nat) by lia.
        destruct (IH rest2 Hrest2) as (IH2le & _ & _).
        rewrite length_append. cbn [String.length orb]. rewrite !orb_true_r.
        repeat split; try lia; discriminate.
      + cbn [orb String.length] in *.
        split; [lia|]. split.
        * intros Hsp. apply IHlt in Hsp. lia.
        * intros Hsp. now rewrite (IHid Hsp). }
  apply (H (String.length s) s). lia.
Qed.

(** X16: what [escapeHtml] returns holds no [<] and no [>], for every
    value, so an escaped text cannot open or close a tag in the markup it is
    put into. *)
Theorem escaped_text_has_no_tags (v : value) :
  has_char "<" (escapeHtml v) = false /\ has_char ">" (escapeHtml v) = false.
Proof.
  unfold escapeHtml. destruct (truthy v); cbn [negb].
  - apply text_to_html_no_angle.
  - split; reflexivity.
Qed.

(** X17: [escapeHtml] changes a text exactly when the text holds one of
    [&], [<], [>] or a no-break space; it never shortens a text. *)
Theorem escapeHtml_changes_special_text_only (s : string) :
  (escapeHtml (VStr s) = s <-> has_special s = false)
  /\ (String.length s <= String.length (escapeHtml (VStr s)))%nat.
Proof.
  destruct (text_to_html_length s) as (Hle & Hlt & Hid).
  unfold escapeHtml. cbn [truthy to_string]. rewrite negb_involutive.
  destruct (String.eqb s "") eqn:E.
  - apply String.eqb_eq in E. subst s. split; [split; reflexivity | apply Nat.le_refl].
  - split; [|exact Hle]. split.
    + intros Heq. destruct (has_special s); [|reflexivity].
      specialize (Hlt eq_refl). rewrite Heq in Hlt. lia.
    + exact Hid.
Qed.

(** ** Times *)

(** X18: a time in the past is printed relative to now, with a count that
    is never zero: [刚才] below a minute, then 1 to 59 minutes, 1 to 23
    hours, and whole days from one day on. *)
Theorem formatTime_past (rt : Runtime) (timestamp : value) (date : Z) :
  Date_parse rt timestamp = Some date ->
  date < Date_now rt ->
  (Date_now rt - date < 60000 /\ formatTime rt timestamp = "刚才")
  \/ (exists n,
        1 <= n <= 59 /\ n = (Date_now rt - date) / 60000
        /\ formatTime rt timestamp = Zstr n ++ " 分钟前")
  \/ (exists n,
        1 <= n <= 23 /\ n = (Date_now rt - date) / 3600000
        /\ formatTime rt timestamp = Zstr n ++ " 小时前")
  \/ (exists n,
        1 <= n /\ n = (Date_now rt - date) / 86400000
        /\ formatTime rt timestamp = Zstr n ++ " 天前").
Proof.
  intros Hd Hlt. unfold formatTime. rewrite Hd. cbv zeta.
  assert (E : (date - Date_now rt <? 0) = true) by (apply Z.ltb_lt; lia).
  rewrite E.
  replace (Z.abs (date - Date_now rt)) with (Date_now rt - date) by lia.
  destruct (Date_now rt - date <? 60000) eqn:E1.
  { apply Z.ltb_lt in E1. left. split; [exact E1 | reflexivity]. }
  apply Z.ltb_ge in E1. right.
  destruct (Date_now rt - date <? 3600000) eqn:E2.
  { apply Z.ltb_lt in E2. left. eexists. split; [|split; reflexivity].
    split; [apply Z.div_le_lower_bound | apply Z.lt_succ_r, Z.div_lt_upper_bound]; lia. }
  apply Z.ltb_ge in E2. right.
  destruct (Date_now rt - date <? 86400000) eqn:E3.
  { apply Z.ltb_lt in E3. left. eexists. split; [|split; reflexivity].
    split; [apply Z.div_le_lower_bound | apply Z.lt_succ_r, Z.div_lt_upper_bound]; lia. }
  apply Z.ltb_ge in E3. right.
  eexists. split; [|split; reflexivity].
  apply Z.div_le_lower_bound; lia.
Qed.

Lemma formatTime_past_witness :
  Date_parse Sample.runtime (VNum 1699999000000) = Some 1699999000000
  /\ 1699999000000 < Date_now Sample.runtime
  /\ formatTime Sample.runtime (VNum 1699999000000) = "16 分钟前"
  /\ ((Date_now Sample.runtime - 1699999000000 < 60000
       /\ formatTime Sample.runtime (VNum 1699999000000) = "刚才")
      \/ (exists n,
            1 <= n <= 59 /\ n = (Date_now Sample.runtime - 1699999000000) / 60000
            /\ formatTime Sample.runtime (VNum 1699999000000) = Zstr n ++ " 分钟前")
      \/ (exists n,
            1 <= n <= 23 /\ n = (Date_now Sample.runtime - 1699999000000) / 3600000
            /\ formatTime Sample.runtime (VNum 1699999000000) = Zstr n ++ " 小时前")
      \/ (exists n,
            1 <= n /\ n = (Date_now Sample.runtime - 1699999000000) / 86400000
            /\ formatTime Sample.runtime (VNum 1699999000000) = Zstr n ++ " 天前")).
Proof.
  split; [reflexivity|]. split; [reflexivity|]. split; [reflexivity|].
  exact (formatTime_past Sample.runtime (VNum 1699999000000) 1699999000000
           eq_refl eq_refl).
Defined.

(** X19: a time that is now or later is printed by how far ahead it is,
    not by its calendar day: [马上] below a minute (now included), then 1
    to 59 minutes, then the clock time after [今天] for anything less than
    24 hours ahead, after [明天] for less than 48 hours ahead, and the month
    and day with the clock time beyond that. *)
Theorem formatTime_future (rt : Runtime) (timestamp : value) (date : Z) :
  Date_parse rt timestamp = Some date ->
  Date_now rt <= date ->
  (date - Date_now rt < 60000 /\ formatTime rt timestamp = "马上")
  \/ (exists n,
        1 <= n <= 59 /\ n = (date - Date_now rt) / 60000
        /\ formatTime rt timestamp = Zstr n ++ " 分钟后")
  \/ (3600000 <= date - Date_now rt < 86400000
      /\ formatTime rt timestamp = "今天 " ++ clock_text rt date)
  \/ (86400000 <= date - Date_now rt < 172800000
      /\ formatTime rt timestamp = "明天 " ++ clock_text rt date)
  \/ (172800000 <= date - Date_now rt
      /\ formatTime rt timestamp
         = Zstr (getMonth rt date + 1) ++ "月" ++ Zstr (getDate rt date) ++ "日 "
           ++ clock_text rt date).
Proof.
  intros Hd Hle. unfold formatTime. rewrite Hd. cbv zeta.
  assert (E : (date - Date_now rt <? 0) = false) by (apply Z.ltb_ge; lia).
  rewrite E.
  destruct (date - Date_now rt <? 60000) eqn:E1.
  { apply Z.ltb_lt in E1. left. split; [exact E1 | reflexivity]. }
  apply Z.ltb_ge in E1. right.
  destruct (date - Date_now rt <? 3600000) eqn:E2.
  { apply Z.ltb_lt in E2. left. eexists. split; [|split; reflexivity].
    split; [apply Z.div_le_lower_bound | apply Z.lt_succ_r, Z.div_lt_upper_bound]; lia. }
  apply Z.ltb_ge in E2. right.
  destruct (date - Date_now rt <? 86400000) eqn:E3.
  { apply Z.ltb_lt in E3. left. split; [lia | reflexivity]. }
  apply Z.ltb_ge in E3. right.
  destruct (date - Date_now rt <? 172800000) eqn:E4.
  { apply Z.ltb_lt in E4. left. split; [lia | reflexivity]. }
  apply Z.ltb_ge in E4. right. split; [lia | reflexivity].
Qed.

Lemma formatTime_future_witness :
  Date_parse Sample.runtime (VNum 1700003700000) = Some 1700003700000
  /\ Date_now Sample.runtime <= 1700003700000
  /\ formatTime Sample.runtime (VNum 1700003700000) = "今天 23:15"
  /\ ((1700003700000 - Date_now Sample.runtime < 60000
       /\ formatTime Sample.runtime (VNum 1700003700000) = "马上")
      \/ (exists n,
            1 <= n <= 59 /\ n = (1700003700000 - Date_now Sample.runtime) / 60000
            /\ formatTime Sample.runtime (VNum 1700003700000) = Zstr n ++ " 分钟后")
      \/ (3600000 <= 1700003700000 - Date_now Sample.runtime < 86400000
          /\ formatTime Sample.runtime (VNum 1700003700000)
             = "今天 " ++ clock_text Sample.runtime 1700003700000)
      \/ (86400000 <= 1700003700000 - Date_now Sample.runtime < 172800000
          /\ formatTime Sample.runtime (VNum 1700003700000)
             = "明天 " ++ clock_text Sample.runtime 1700003700000)
      \/ (172800000 <= 1700003700000 - Date_now Sample.runtime
          /\ formatTime Sample.runtime (VNum 1700003700000)
             = Zstr (getMonth Sample.runtime 1700003700000 + 1) ++ "月"
               ++ Zstr (getDate Sample.runtime 1700003700000) ++ "日 "
               ++ clock_text Sample.runtime 1700003700000)).
Proof.
  assert (H : Date_now Sample.runtime <= 1700003700000) by (vm_compute; discriminate).
  split; [reflexivity|]. split; [exact H|]. split; [reflexivity|].
  exact (formatTime_future Sample.runtime (VNum 1700003700000) 1700003700000 eq_refl H).
Defined.

Lemma pad2_two_digits (n : Z) :
  0 <= n <= 99 ->
  String.length (pad2 n) = 2%nat
  /\ (n <= 9 -> pad2 n = "0" ++ Zstr n)
  /\ (10 <= n -> pad2 n = Zstr n).
Proof.
  intros Hn.
  assert (Hall : forallb
            (fun k => Nat.eqb (String.length (pad2 (Z.of_nat k))) 2
                      && (if (k <=? 9)%nat
                          then String.eqb (pad2 (Z.of_nat k)) ("0" ++ Zstr (Z.of_nat k))
                          else String.eqb (pad2 (Z.of_nat k)) (Zstr (Z.of_nat k))))
            (seq 0 100) = true) by (vm_compute; reflexivity).
  rewrite forallb_forall in Hall.
  specialize (Hall (Z.to_nat n)).
  rewrite Z2Nat.id in Hall by lia.
  assert (Hin : In (Z.to_nat n) (seq 0 100)) by (apply in_seq; lia).
  apply Hall in Hin. apply andb_prop in Hin as [Hlen Hshape].
  apply Nat.eqb_eq in Hlen. split; [exact Hlen|].
  destruct (Z.to_nat n <=? 9)%nat eqn:E.
  - apply Nat.leb_le in E. apply String.eqb_eq in Hshape.
    split; [intros _; exact Hshape | intros; lia].
  - apply Nat.leb_gt in E. apply String.eqb_eq in Hshape.
    split; [intros; lia | intros _; exact Hshape].
Qed.

(** X20: on a host whose hours are 0 to 23 and whose minutes are 0 to 59,
    the clock time [formatTime] prints has the form HH:MM: five characters,
    each number padded to two digits. *)
Theorem clock_text_is_HH_MM (rt : Runtime) (t : Z) :
  0 <= getHours rt t <= 23 ->
  0 <= getMinutes rt t <= 59 ->
  String.length (clock_text rt t) = 5%nat
  /\ String.length (pad2 (getHours rt t)) = 2%nat
  /\ String.length (pad2 (getMinutes rt t)) = 2%nat
  /\ clock_text rt t = pad2 (getHours rt t) ++ ":" ++ pad2 (getMinutes rt t)
  /\ (getHours rt t <= 9 -> pad2 (getHours rt t) = "0" ++ Zstr (getHours rt t))
  /\ (getMinutes rt t <= 9 -> pad2 (getMinutes rt t) = "0" ++ Zstr (getMinutes rt t)).
Proof.
  intros Hh Hm.
  destruct (pad2_two_digits (getHours rt t)) as (Hlh & Hsh & _); [lia|].
  destruct (pad2_two_digits (getMinutes rt t)) as (Hlm & Hsm & _); [lia|].
  unfold clock_text. rewrite !length_append, Hlh, Hlm.
  repeat split; auto.
Qed.

Lemma clock_text_is_HH_MM_witness :
  0 <= getHours Sample.runtime 1700003700000 <= 23
  /\ 0 <= getMinutes Sample.runtime 1700003700000 <= 59
  /\ String.length (clock_text Sample.runtime 1700003700000) = 5%nat.
Proof.
  assert (Hh : 0 <= getHours Sample.runtime 1700003700000 <= 23)
    by (vm_compute; split; discriminate).
  assert (Hm : 0 <= getMinutes Sample.runtime 1700003700000 <= 59)
    by (vm_compute; split; discriminate).
  split; [exact Hh|]. split; [exact Hm|].
  exact (proj1 (clock_text_is_HH_MM Sample.runtime 1700003700000 Hh Hm)).
Defined.

(** ** The body of a popup *)

Lemma append_not_empty (a b : string) : (0 < String.length a)%nat -> a ++ b <> "".
Proof.
  intros Ha H. apply (f_equal String.length) in H.
  rewrite length_append in H. cbn [String.length] in H. lia.
Qed.

Lemma append_not_empty_r (a b : string) : (0 < String.length b)%nat -> a ++ b <> "".
Proof.
  intros Hb H. apply (f_equal String.length) in H.
  rewrite length_append in H. cbn [String.length] in H. lia.
Qed.

Lemma opening_lengths :
  (0 < String.length Tpl.content_open)%nat
  /\ (0 < String.length Tpl.time_open)%nat
  /\ (0 < String.length Tpl.tags_open)%nat.
Proof. repeat split; apply Nat.ltb_lt; vm_compute; reflexivity. Qed.

(** X21: the body of a normal reminder is empty exactly when the reminder
    has no content, no time and no tag; a title alone does not fill it. *)
Theorem renderNormalContent_empty_iff
    (rt : Runtime) (content time : value) (tags : option (list value)) :
  renderNormalContent rt content time tags = ""
  <-> truthy content = false
      /\ truthy time = false
      /\ (tags = None \/ tags = Some []).
Proof.
  destruct opening_lengths as (Hc & Ht & Hg).
  unfold renderNormalContent. cbv zeta. split.
  - intros H.
    assert (Htags : tags = None \/ tags = Some []
                    \/ exists t l, tags = Some (t :: l)).
    { destruct tags as [[|t l]|]; eauto. }
    destruct Htags as [-> | [-> | (t & l & ->)]].
    + destruct (truthy content).
      { exfalso. destruct (truthy time); revert H.
        - apply append_not_empty. rewrite !length_append. lia.
        - apply append_not_empty_r. rewrite !length_append. lia. }
      destruct (truthy time).
      { exfalso. revert H. apply append_not_empty_r. rewrite !length_append. lia. }
      auto.
    + change (0 <? len (@nil value)) with false in H. cbv iota in H.
      destruct (truthy content).
      { exfalso. destruct (truthy time); revert H.
        - apply append_not_empty. rewrite !length_append. lia.
        - apply append_not_empty_r. rewrite !length_append. lia. }
      destruct (truthy time).
      { exfalso. revert H. apply append_not_empty_r. rewrite !length_append. lia. }
      auto.
    + exfalso.
      assert (E : (0 <? len (t :: l)) = true).
      { apply Z.ltb_lt. unfold len. cbn [List.length]. lia. }
      rewrite E in H. revert H.
      apply append_not_empty_r. rewrite !length_append. lia.
  - intros (-> & -> & [-> | ->]); reflexivity.
Qed.

(** X22: an overdue reminder that is no batch (at most one item, the
    payload itself when it has no item list) shows the content or message of
    that item as a plain paragraph and nothing else, neither its time nor
    tags; with an empty item list the body is empty, whatever the payload
    carries. *)
Theorem overdue_popup_without_batch (rt : Runtime) (d : Payload) :
  (List.length (overdueItems d) <= 1)%nat ->
  body_html rt (overdueConfig d)
  = match overdueItems d with
    | [] => ""
    | item :: _ =>
        if truthy (or_ (i_content item) (i_message item))
        then Tpl.content_open ++ escapeHtml (or_ (i_content item) (i_message item))
             ++ Tpl.content_close
        else ""
    end.
Proof.
  intros Hlen. unfold body_html.
  cbn [c_type c_summary c_items c_content c_time c_tags overdueConfig].
  change (String.eqb "overdue" "daily_summary") with false.
  change (String.eqb "overdue" "overdue") with true. cbv iota.
  assert (E : (1 <? len (overdueItems d)) = false).
  { apply Z.ltb_ge. unfold len. lia. }
  rewrite E. unfold renderNormalContent. cbv zeta.
  destruct (overdueItems d) as [|item rest]; cbn [nth_error truthy]; [reflexivity|].
  destruct (truthy (or_ (i_content item) (i_message item))); reflexivity.
Qed.

Lemma overdue_popup_without_batch_witness :
  (List.length (overdueItems (set_items (Some []) Inputs.with_content)) <= 1)%nat
  /\ p_content (set_items (Some []) Inputs.with_content) = VStr "before Friday"
  /\ body_html Sample.runtime (overdueConfig (set_items (Some []) Inputs.with_content)) = "".
Proof.
  assert (H : (List.length (overdueItems (set_items (Some []) Inputs.with_content)) <= 1)%nat)
    by (apply Nat.leb_le; reflexivity).
  split; [exact H|]. split; [reflexivity|].
  exact (overdue_popup_without_batch Sample.runtime
           (set_items (Some []) Inputs.with_content) H).
Defined.
